(** * nemos basis subsystem: raised-cosine families and the transformer adapter

    A shallow embedding of
      - [src/nemos/basis/_raised_cosine_basis.py]
        ([RaisedCosineBasisLinear], [RaisedCosineBasisLog]), and
      - [src/nemos/basis/_transformer_basis.py] ([TransformerBasis]),
    together with the properties stated about them.

    Conventions of the embedding.
      - Python floats that are only compared and multiplied (the validated
        hyper-parameters [width] and [time_scaling]) are rationals [Q], so
        that the validation code runs inside Rocq.  Where the code applies
        [np.cos] or [np.log] the values are injected into the reals [R];
        rounding of IEEE arithmetic and NaN are not modelled.
      - A raised Python exception is the left summand of [exn + A].
      - A global name is looked up among the names its module binds;
        calling a name that is not bound raises [NameError].
      - An f-string is a list of fragments: literal text and the values
        that are interpolated into it.
      - Python objects that are shared and mutated (basis objects wrapped
        by a [TransformerBasis]) live in an explicit heap. *)

From Stdlib Require Import ZArith QArith Qround Qabs Reals Qreals.
From Stdlib Require Import Lia Lqa Lra String List.
From stdpp Require Import gmap strings list.
Import ListNotations.

Set Default Proof Using "Type".

(* ===================================================================== *)
(** * Python values shared by both files *)
(* ===================================================================== *)

(** One piece of a formatted message. *)
Inductive fragment : Type :=
| Text (s : string)            (* literal text of the f-string *)
| FInt (z : Z)                 (* an interpolated integer *)
| FNum (q : Q)                 (* an interpolated float *)
| FShape (sh : list nat).      (* an interpolated shape tuple *)

Definition message := list fragment.

(** The exception classes the two files can raise or let escape. *)
Inductive exn : Type :=
| ValueError (msg : message)
| TypeError (msg : message)
| RuntimeError (msg : message)
| AttributeError (attr : string)   (* object has no attribute [attr] *)
| NameError (name : string)        (* global name [name] is not defined *)
| IndexError
| RecursionError.

Definition is_ValueError (e : exn) : bool :=
  match e with ValueError _ => true | _ => false end.

Definition exn_message (e : exn) : message :=
  match e with
  | ValueError m | TypeError m | RuntimeError m => m
  | AttributeError _ | NameError _ | IndexError | RecursionError => []
  end.

(** Results of fallible code, with the usual bind. *)
Definition result (A : Type) : Type := exn + A.

Definition bind {A B : Type} (r : result A) (k : A -> result B) : result B :=
  match r with
  | inl e => inl e
  | inr a => k a
  end.

Notation "'let*' x ':=' e 'in' k" := (bind e (fun x => k))
  (at level 10, x pattern, e at level 100, k at level 200).

Definition raise {A : Type} (e : exn) : result A := inl e.
Definition ret {A : Type} (a : A) : result A := inr a.

(** [seq[i]] for a non-negative index. *)
Definition getitem {A : Type} (l : list A) (i : nat) : result A :=
  match l !! i with
  | Some a => ret a
  | None => raise IndexError
  end.

(** Whether a fragment of literal text mentions [needle]. *)
Fixpoint has_prefix (p s : string) : bool :=
  match p, s with
  | EmptyString, _ => true
  | String a p', String b s' => if Ascii.eqb a b then has_prefix p' s' else false
  | String _ _, EmptyString => false
  end.

Fixpoint contains (needle s : string) : bool :=
  has_prefix needle s ||
  match s with
  | EmptyString => false
  | String _ s' => contains needle s'
  end.

Definition mentions (needle : string) (m : message) : bool :=
  existsb (fun f => match f with Text s => contains needle s | _ => false end) m.

(* ===================================================================== *)
(** * The numpy and builtin functions the code calls *)
(* ===================================================================== *)

Module np.

(** [np.isclose(a, b)] with the default tolerances:
    [abs(a - b) <= atol + rtol * abs(b)]. *)
Definition rtol : Q := 1 # 100000.
Definition atol : Q := 1 # 100000000.

Definition isclose (a b : Q) : bool :=
  Qle_bool (Qabs (a - b)) (atol + rtol * Qabs b).

(** [np.clip(v, lo, hi)] is [minimum(maximum(v, lo), hi)]. *)
Definition clip (v lo hi : R) : R := Rmin (Rmax v lo) hi.

(** [y[-1] = stop] on a non-empty array. *)
Definition set_last (y : list R) (stop : R) : list R :=
  <[Nat.pred (length y) := stop]> y.

(** [np.linspace(start, stop, num)] with [endpoint=True]: the samples
    [arange(num) * step + start] with [step = (stop - start) / (num - 1)],
    the last one overwritten with [stop].  (When [step] is 0 numpy divides
    by [num - 1] after multiplying; over the reals that is the same
    number.) *)
Definition linspace (start stop : R) (num : Z) : result (list R) :=
  if (num <? 0)%Z then
    raise (ValueError [Text "Number of samples, "; FInt num;
                       Text ", must be non-negative."])
  else
    let div := (num - 1)%Z in
    let delta := (stop - start)%R in
    let y := INR <$> seq 0 (Z.to_nat num) in
    let y := if (0 <? div)%Z
             then (fun v => v * (delta / IZR div))%R <$> y
             else (fun v => v * delta)%R <$> y in
    let y := (fun v => v + start)%R <$> y in
    ret (if (1 <? num)%Z then set_last y stop else y).

End np.

(** The builtin [round] on a float: to the nearest integer, ties to even. *)
Definition py_round (x : Q) : Z :=
  let f := Qfloor x in
  match Qcompare (x - inject_Z f) (1 # 2) with
  | Lt => f
  | Gt => (f + 1)%Z
  | Eq => if Z.even f then f else (f + 1)%Z
  end.

(* ===================================================================== *)
(** * [_raised_cosine_basis.py]: [RaisedCosineBasisLinear] *)
(* ===================================================================== *)

(** The global names of the module: what its import statements (lines
    3 to 17) and its two class statements bind.  From [._basis] the module
    imports [Basis], [check_transform_input] and [check_one_dimensional]
    and nothing else. *)
Definition module_names : list string :=
  ["annotations"; "Optional"; "Tuple"; "np"; "scipy"; "ArrayLike"; "NDArray";
   "support_pynapple"; "FeatureMatrix"; "EvalBasisMixin"; "ConvBasisMixin";
   "Basis"; "check_transform_input"; "check_one_dimensional"; "abc";
   "RaisedCosineBasisLinear"; "RaisedCosineBasisLog"].

(** Evaluating the global name [name] in a namespace that binds [names]:
    what the name stands for if it is bound, [NameError] if it is not.
    No builtin is called [min_max_rescale_samples], the one name the
    methods below look up that is not a parameter or an attribute. *)
Definition global {A : Type} (names : list string) (name : string)
    (denotation : A) : result A :=
  if existsb (String.eqb name) names
  then ret denotation
  else raise (NameError name).

(** The attributes that [Basis.__init__] (in [_basis.py]) stores on every
    basis. *)
Record Basis_attrs : Type := {
  n_basis_funcs : Z;
  mode : string;
  window_size : option Z;
  bounds : option (R * R);
  label : string
}.

Module RaisedCosineBasisLinear.

Record t : Type := mk {
  base : Basis_attrs;
  _n_input_dimensionality : Z;
  _width : Q;
  _rescale_samples : bool
}.

Definition with_width (self : t) (width : Q) : t :=
  {| base := base self;
     _n_input_dimensionality := _n_input_dimensionality self;
     _width := width;
     _rescale_samples := _rescale_samples self |}.

Definition with_rescale_samples (self : t) (b : bool) : t :=
  {| base := base self;
     _n_input_dimensionality := _n_input_dimensionality self;
     _width := _width self;
     _rescale_samples := b |}.

Definition width_message (width : Q) : message :=
  [Text "Invalid raised cosine width. ";
   Text "2*width must be a positive integer, 2*width = ";
   FNum (2 * width);
   Text " instead!"].

Definition _check_width (width : Q) : result unit :=
  if Qle_bool width 1
     || negb (np.isclose (width * 2) (inject_Z (py_round (2 * width))))
  then raise (ValueError (width_message width))
  else ret tt.

(** The [width] property setter. *)
Definition set_width (self : t) (width : Q) : result t :=
  let* _ := _check_width width in
  ret (with_width self width).

(** [class_name] is [self.__class__.__name__]. *)
Definition _check_n_basis_min (class_name : string) (self : t) : result unit :=
  if (n_basis_funcs (base self) <? 2)%Z
  then raise (ValueError
                [Text "Object class "; Text class_name;
                 Text " requires >= 2 basis elements. ";
                 FInt (n_basis_funcs (base self));
                 Text " basis elements specified instead"])
  else ret tt.

Definition _compute_peaks (self : t) : result (list R) :=
  np.linspace 0 1 (n_basis_funcs (base self)).

(** One entry of the basis matrix. *)
Definition raised_cosine (delta width x peak : R) : R :=
  (0.5 * (cos (np.clip (PI * (x - peak) / (delta * width)) (- PI) PI) + 1))%R.

Section Collaborators.
(** [Basis.__init__] and [min_max_rescale_samples] are defined in
    [_basis.py].  The first is reached through [super()]; the second is
    what the global name [min_max_rescale_samples] stands for in a
    namespace that binds it. *)
Variable Basis__init__ :
  Z -> string -> option Z -> option (R * R) -> string -> result Basis_attrs.
Variable min_max_rescale_samples :
  list R -> option (R * R) -> result (list R * (R * R)).

Definition __init__ (n_basis_funcs : Z) (mode : string) (width : Q)
    (window_size : option Z) (bounds : option (R * R)) (label : string)
    : result t :=
  let* base := Basis__init__ n_basis_funcs mode window_size bounds label in
  let* _ := _check_width width in
  ret {| base := base;
         _n_input_dimensionality := 1;
         _width := width;
         _rescale_samples := true |}.

(** The body of [__call__], run with the global names [names] and with
    [self._compute_peaks] resolved by the caller (the subclass overrides
    it).  The callee of line 155 is looked up before its arguments are
    evaluated. *)
Definition call_with (names : list string) (compute_peaks : result (list R))
    (self : t) (sample_pts : list R) : result (list (list R)) :=
  let* sample_pts :=
    if _rescale_samples self
    then let* rescale := global names "min_max_rescale_samples"
                           min_max_rescale_samples in
         let* r := rescale sample_pts (bounds (base self)) in
         ret (fst r)
    else ret sample_pts in
  let* peaks := compute_peaks in
  let* p1 := getitem peaks 1 in
  let* p0 := getitem peaks 0 in
  let delta := (p1 - p0)%R in
  ret ((fun x => raised_cosine delta (Q2R (_width self)) x <$> peaks)
         <$> sample_pts).

(** [__call__]: the body runs with the global names of its module.
    [sample_pts] is the one-dimensional array that the decorators of
    lines 127 to 129 hand to the body. *)
Definition __call__ (self : t) (sample_pts : list R)
    : result (list (list R)) :=
  call_with module_names (_compute_peaks self) self sample_pts.

End Collaborators.

(** An instance as the constructor and the setters leave it. *)
Definition valid (self : t) : Prop :=
  _check_n_basis_min "RaisedCosineBasisLinear" self = inr tt
  /\ _check_width (_width self) = inr tt
  /\ _rescale_samples self = true.

End RaisedCosineBasisLinear.

(* ===================================================================== *)
(** * [_raised_cosine_basis.py]: [RaisedCosineBasisLog] *)
(* ===================================================================== *)

Module RaisedCosineBasisLog.

(** The subclass adds two attributes to those of its parent. *)
Record t : Type := mk {
  super : RaisedCosineBasisLinear.t;
  _time_scaling : Q;
  enforce_decay_to_zero : bool
}.

Definition width (self : t) : Q := RaisedCosineBasisLinear._width (super self).
Definition n_basis (self : t) : Z := n_basis_funcs (RaisedCosineBasisLinear.base (super self)).

Definition _check_time_scaling (time_scaling : Q) : result unit :=
  if Qle_bool time_scaling 0
  then raise (ValueError
                [Text "Only strictly positive time_scaling are allowed, ";
                 FNum time_scaling; Text " provided instead."])
  else ret tt.

(** The [time_scaling] property setter. *)
Definition set_time_scaling (self : t) (time_scaling : Q) : result t :=
  let* _ := _check_time_scaling time_scaling in
  ret {| super := super self;
         _time_scaling := time_scaling;
         enforce_decay_to_zero := enforce_decay_to_zero self |}.

Definition last_peak (self : t) : R :=
  if enforce_decay_to_zero self
  then (1 - Q2R (width self) / (IZR (n_basis self) + Q2R (width self) - 1))%R
  else 1%R.

Definition _compute_peaks (self : t) : result (list R) :=
  np.linspace 0 (last_peak self) (n_basis self).

(** The log-stretch applied to one rescaled sample. *)
Definition log_stretch (time_scaling : Q) (x : R) : R :=
  (ln (Q2R time_scaling * x + 1) / ln (Q2R time_scaling + 1))%R.

Section Collaborators.
Variable Basis__init__ :
  Z -> string -> option Z -> option (R * R) -> string -> result Basis_attrs.
Variable min_max_rescale_samples :
  list R -> option (R * R) -> result (list R * (R * R)).

(** [time_scaling = None] is the keyword default. *)
Definition __init__ (n_basis_funcs : Z) (mode : string) (width : Q)
    (time_scaling : option Q) (enforce_decay_to_zero : bool)
    (window_size : option Z) (bounds : option (R * R)) (label : string)
    : result t :=
  let* sup := RaisedCosineBasisLinear.__init__ Basis__init__
                n_basis_funcs mode width window_size bounds label in
  let sup := RaisedCosineBasisLinear.with_rescale_samples sup false in
  let time_scaling :=
    match time_scaling with None => 50%Q | Some ts => ts end in
  let* _ := _check_time_scaling time_scaling in
  ret {| super := sup;
         _time_scaling := time_scaling;
         enforce_decay_to_zero := enforce_decay_to_zero |}.

(** The body of [_transform_samples], run with the global names
    [names]; line 353 looks the rescaler up. *)
Definition transform_samples_with (names : list string) (self : t)
    (sample_pts : list R) : result (list R) :=
  let* rescale := global names "min_max_rescale_samples"
                    min_max_rescale_samples in
  let* r := rescale sample_pts
              (bounds (RaisedCosineBasisLinear.base (super self))) in
  let sample_pts := fst r in
  ret (log_stretch (_time_scaling self) <$> sample_pts).

Definition _transform_samples (self : t) (sample_pts : list R)
    : result (list R) :=
  transform_samples_with module_names self sample_pts.

(** The body of [__call__]:
    [super().__call__(self._transform_samples(sample_pts))]; inside the
    parent's method [self._compute_peaks] is the override above. *)
Definition call_with (names : list string) (self : t) (sample_pts : list R)
    : result (list (list R)) :=
  let* log_spaced_pts := transform_samples_with names self sample_pts in
  RaisedCosineBasisLinear.call_with min_max_rescale_samples names
    (_compute_peaks self) (super self) log_spaced_pts.

Definition __call__ (self : t) (sample_pts : list R)
    : result (list (list R)) :=
  call_with module_names self sample_pts.

End Collaborators.

Definition valid (self : t) : Prop :=
  RaisedCosineBasisLinear._check_n_basis_min "RaisedCosineBasisLog" (super self) = inr tt
  /\ RaisedCosineBasisLinear._check_width (width self) = inr tt
  /\ RaisedCosineBasisLinear._rescale_samples (super self) = false
  /\ _check_time_scaling (_time_scaling self) = inr tt.

End RaisedCosineBasisLog.

(* ===================================================================== *)
(** * Arrays and the other Python values the adapter receives *)
(* ===================================================================== *)

Module ndarray.

(** An array is its shape and its elements in row-major order. *)
Record t : Type := mk { shape : list nat; data : list Q }.

Definition ndim (a : t) : nat := length (shape a).

Definition size_of (sh : list nat) : nat := foldr Nat.mul 1%nat sh.

Definition zeros (sh : list nat) : t := mk sh (repeat 0%Q (size_of sh)).

(** Row [i] of [d] cut into rows of [w] elements. *)
Definition row (w : nat) (d : list Q) (i : nat) : list Q :=
  take w (drop (i * w) d).

(** [a[:, lo:hi]]: the slice of the second axis, clamped to its length
    as Python slices are. *)
Definition slice_columns (a : t) (lo hi : nat) : result t :=
  match shape a with
  | r :: c :: rest =>
      let k := size_of rest in
      let lo' := Nat.min lo c in
      let hi' := Nat.max lo' (Nat.min hi c) in
      ret {| shape := r :: (hi' - lo')%nat :: rest;
             data := concat ((fun i => take ((hi' - lo') * k)
                                         (drop (lo' * k) (row (c * k) (data a) i)))
                               <$> seq 0 r) |}
  | _ => raise IndexError
  end.

(** [np.reshape(a, new_shape)]. *)
Definition reshape (a : t) (new_shape : list nat) : result t :=
  if (size_of new_shape =? size_of (shape a))%nat
  then ret {| shape := new_shape; data := data a |}
  else raise (ValueError [Text "cannot reshape array of size ";
                          FInt (Z.of_nat (size_of (shape a)));
                          Text " into shape "; FShape new_shape]).

End ndarray.

(** Addresses of basis objects. *)
Abbreviation loc := nat.

Inductive value : Type :=
| VNone
| VInt (z : Z)
| VNum (q : Q)                 (* a float *)
| VStr (s : string)
| VTuple (sh : list nat)       (* a tuple of sizes *)
| VArray (a : ndarray.t)
| VRef (l : loc)               (* a basis object *)
| VChained (method : value).   (* [transformer_chaining(method)] bound to
                                  the adapter *)

(** [getattr(v, name)] on a value that is not a basis.  Of an array's
    attributes the code reads [ndim] and [shape]; the other values above
    have neither. *)
Definition value_getattr (v : value) (name : string) : result value :=
  match v with
  | VArray a =>
      if String.eqb name "ndim" then ret (VInt (Z.of_nat (ndarray.ndim a)))
      else if String.eqb name "shape" then ret (VTuple (ndarray.shape a))
      else raise (AttributeError name)
  | _ => raise (AttributeError name)
  end.

Definition not_subscriptable : exn :=
  TypeError [Text "object is not subscriptable"].
Definition not_iterable : exn :=
  TypeError [Text "object is not iterable"].

(** [v[i]] *)
Definition value_getitem (v : value) (i : nat) : result nat :=
  match v with
  | VTuple sh => getitem sh i
  | _ => raise not_subscriptable
  end.

(** [sum(v)] *)
Definition py_sum (v : value) : result nat :=
  match v with
  | VTuple sh => ret (foldr Nat.add 0%nat sh)
  | _ => raise not_iterable
  end.

(** [v[:, lo:hi]] *)
Definition value_slice_columns (v : value) (lo hi : nat) : result ndarray.t :=
  match v with
  | VArray a => ndarray.slice_columns a lo hi
  | _ => raise not_subscriptable
  end.

(* ===================================================================== *)
(** * Basis objects on the heap *)
(* ===================================================================== *)

Inductive binop : Type := Add | Mul.

(** A basis object: its instance attributes and, for a composite, the
    operator and the two operands it refers to. *)
Record basis_obj : Type := {
  attrs : gmap string value;
  operands : option (binop * loc * loc)
}.

Abbreviation heap := (list basis_obj).

(** Code that reads and writes the heap and may raise. *)
Definition M (A : Type) : Type := heap -> result A * heap.

Definition retM {A : Type} (a : A) : M A := fun h => (inr a, h).
Definition raiseM {A : Type} (e : exn) : M A := fun h => (inl e, h).
Definition bindM {A B : Type} (m : M A) (k : A -> M B) : M B :=
  fun h => match m h with
           | (inl e, h') => (inl e, h')
           | (inr a, h') => k a h'
           end.
Definition readM {A : Type} (f : heap -> result A) : M A := fun h => (f h, h).

Notation "'do*' x ':=' e 'in' k" := (bindM e (fun x => k))
  (at level 10, x pattern, e at level 100, k at level 200).

(** The class [Basis] and its composites are defined in [_basis.py].  The
    definitions of this module stand for the part of them the adapter
    relies on. *)
Module Basis.

(** Modelled from the spec: [_basis.py] is missing; an attribute of a
    basis is read from the object, and the property [n_basis_input_]
    gives the remembered input widths [_n_basis_input_] (section 4.6). *)
Definition getattr (h : heap) (b : loc) (name : string) : result value :=
  let name := if String.eqb name "n_basis_input_"
              then "_n_basis_input_" else name in
  match h !! b with
  | Some o =>
      match attrs o !! name with
      | Some v => ret v
      | None => raise (AttributeError name)
      end
  | None => raise (AttributeError name)
  end.

Definition hasattr (h : heap) (b : loc) (name : string) : bool :=
  match getattr h b name with inr _ => true | inl _ => false end.

(** Modelled from the spec: [_basis.py] is missing; assigning an
    attribute of a basis changes that object and no other (section 5:
    every instance owns its state exclusively). *)
Definition setattr (b : loc) (name : string) (v : value) : M unit :=
  fun h =>
    match h !! b with
    | Some o => (inr tt, <[b := {| attrs := <[name := v]> (attrs o);
                                  operands := operands o |}]> h)
    | None => (inl (AttributeError name), h)
    end.

(** Modelled from the spec: [_basis.py] is missing; the leaves of a
    composite in left-to-right order (section 4.4: a binary tree
    traversed left to right). *)
Fixpoint list_components (fuel : nat) (h : heap) (b : loc) : list loc :=
  match fuel with
  | O => []
  | S fuel =>
      match h !! b with
      | Some o =>
          match operands o with
          | None => [b]
          | Some (_, l, r) =>
              list_components fuel h l ++ list_components fuel h r
          end
      | None => []
      end
  end.

Definition _list_components (h : heap) (b : loc) : list loc :=
  list_components (length h) h b.

Definition attrs_at (h : heap) (b : loc) : gmap string value :=
  match h !! b with Some o => attrs o | None => ∅ end.

(** Modelled from the spec: [_basis.py] is missing; a composite has the
    sum (additive) or the product (multiplicative) of its operands'
    basis counts, and the input widths of its operands side by side
    (sections 3 and 4.4). *)
Definition composite_attrs (op : binop) (a1 a2 : gmap string value)
    : gmap string value :=
  let count :=
    match a1 !! "n_basis_funcs", a2 !! "n_basis_funcs" with
    | Some (VInt n1), Some (VInt n2) =>
        VInt (match op with Add => n1 + n2 | Mul => n1 * n2 end)%Z
    | _, _ => VNone
    end in
  let widths :=
    match a1 !! "_n_basis_input_", a2 !! "_n_basis_input_" with
    | Some (VTuple w1), Some (VTuple w2) => VTuple (w1 ++ w2)
    | _, _ => VNone
    end in
  <["n_basis_funcs" := count]> (<["_n_basis_input_" := widths]> ∅).

(** Modelled from the spec: [_basis.py] is missing; [b1 + b2] and
    [b1 * b2] build a new composite that refers to its two operands and
    leave the operands as they are (sections 3 and 5). *)
Definition compose (op : binop) (b1 b2 : loc) : M loc :=
  fun h =>
    (inr (length h),
     h ++ [{| attrs := composite_attrs op (attrs_at h b1) (attrs_at h b2);
              operands := Some (op, b1, b2) |}]).

Definition __add__ : loc -> loc -> M loc := compose Add.
Definition __mul__ : loc -> loc -> M loc := compose Mul.

(** [result = result * self], [n] times. *)
Fixpoint mul_repeat (n : nat) (self result : loc) : M loc :=
  match n with
  | O => retM result
  | S n => do* result := __mul__ result self in mul_repeat n self result
  end.

(** Modelled from the spec: [_basis.py] is missing; [b ** k] is [b]
    multiplied by itself [k] times, a type error for an exponent that is
    not an integer and a value error for an integer below 1
    (section 4.4). *)
Definition __pow__ (self : loc) (exponent : value) : M loc :=
  match exponent with
  | VInt k =>
      if (k <? 1)%Z
      then raiseM (ValueError [Text "Exponent should be a positive integer!"])
      else mul_repeat (Z.to_nat (k - 1)) self self
  | _ => raiseM (TypeError [Text "Exponent should be an integer!"])
  end.

End Basis.

(** [copy.deepcopy] of the standard library, on basis objects. *)
Module copy.

(** The copy of the object graph below [x].  [memo] maps the objects
    already copied to their copies, so that an object reached twice is
    copied once.  Attribute values are immutable here and are shared. *)
Fixpoint deepcopy_aux (fuel : nat) (x : loc) (memo : gmap loc loc) (h : heap)
    : option (loc * gmap loc loc * heap) :=
  match fuel with
  | O => None
  | S fuel =>
      match memo !! x with
      | Some y => Some (y, memo, h)
      | None =>
          match h !! x with
          | None => None
          | Some o =>
              match operands o with
              | None =>
                  Some (length h, <[x := length h]> memo, h ++ [o])
              | Some (op, l, r) =>
                  match deepcopy_aux fuel l memo h with
                  | None => None
                  | Some (l', memo1, h1) =>
                      match deepcopy_aux fuel r memo1 h1 with
                      | None => None
                      | Some (r', memo2, h2) =>
                          Some (length h2, <[x := length h2]> memo2,
                                h2 ++ [{| attrs := attrs o;
                                          operands := Some (op, l', r') |}])
                      end
                  end
              end
          end
      end
  end.

(** The recursion is as deep as the object graph; in a heap of [n]
    objects without cycles that is at most [n]. *)
Definition deepcopy (x : loc) : M loc :=
  fun h =>
    match deepcopy_aux (length h) x ∅ h with
    | Some (y, _, h') => (inr y, h')
    | None => (inl RecursionError, h)
    end.

End copy.

(* ===================================================================== *)
(** * [_transformer_basis.py]: [TransformerBasis] *)
(* ===================================================================== *)

Module TransformerBasis.

(** The adapter has one attribute of its own, the basis it wraps.  It is
    a value here: of the methods below only [__setattr__] assigns
    [_basis], and it returns the adapter after the assignment. *)
Record t : Type := mk { _basis : loc }.

Definition __init__ (basis : loc) : M t :=
  do* b := copy.deepcopy basis in
  retM {| _basis := b |}.

Definition not_initialized_message : message :=
  [Text "Cannot initialize TransformerBasis: the provided basis has no defined input shape. ";
   Text "Please call `set_input_shape` on the basis before calling `fit`, `transform`, or ";
   Text "`fit_transform`."].

Definition _check_initialized (basis : loc) (h : heap) : result unit :=
  let* v := Basis.getattr h basis "_n_basis_input_" in
  match v with
  | VNone => raise (RuntimeError not_initialized_message)
  | _ => ret tt
  end.

Definition _chainable_methods : list string :=
  ["set_kernel"; "set_input_shape"; "_set_input_independent_states";
   "setup_basis"].

(** [getattr(basis, name, None)] *)
Definition getattr_or_None (h : heap) (basis : loc) (name : string) : value :=
  match Basis.getattr h basis name with
  | inr v => v
  | inl _ => VNone
  end.

(** [__getattr__].  Under one of the chainable names a method of the
    basis comes back wrapped (lines 296 to 299); under every other name,
    or when the basis has nothing (or [None]) under the chainable name,
    the attribute of the basis is read as it is (line 300). *)
Definition __getattr__ (self : t) (name : string) (h : heap) : result value :=
  if existsb (String.eqb name) _chainable_methods then
    match getattr_or_None h (_basis self) name with
    | VNone => Basis.getattr h (_basis self) name
    | method => ret (VChained method)
    end
  else Basis.getattr h (_basis self) name.

Definition mismatch_message (expected actual : nat) : message :=
  [Text "Input mismatch: expected "; FInt (Z.of_nat expected);
   Text " inputs, but got "; FInt (Z.of_nat actual);
   Text " columns in X.\n";
   Text "To modify the required number of inputs, call `set_input_shape` before using `fit` or `fit_transform`."].

Definition _check_input (self : t) (X y : value) (h : heap) : result unit :=
  let ndim := match value_getattr X "ndim" with
              | inr v => v
              | inl _ => VNone
              end in
  let* _ :=
    match ndim with
    | VNone => raise (ValueError [Text "The input must be a 2-dimensional array."])
    | VInt 2 => ret tt
    | _ =>
        let* sh := value_getattr X "shape" in
        raise (ValueError
                 [Text "X must be 2-dimensional, shape (n_samples, n_features). The provided X has shape ";
                  match sh with VTuple sh => FShape sh | _ => Text "" end;
                  Text " instead."])
    end in
  let* sh := value_getattr X "shape" in
  let* ncols := value_getitem sh 1 in
  let* widths := __getattr__ self "n_basis_input_" h in
  let* expected := py_sum widths in
  let* _ :=
    if negb (ncols =? expected)%nat
    then raise (ValueError (mismatch_message expected ncols))
    else ret tt in
  match y with
  | VNone => ret tt
  | _ =>
      let* ysh := value_getattr y "shape" in
      let* ylen := value_getitem ysh 0 in
      let* xsh := value_getattr X "shape" in
      let* xlen := value_getitem xsh 0 in
      if negb (ylen =? xlen)%nat
      then
        (* the message is formatted before the exception is built *)
        let* xsh' := value_getattr X "shpae" in
        let* xlen' := value_getitem xsh' 0 in
        let* ysh' := value_getattr y "shape" in
        let* ylen' := value_getitem ysh' 0 in
        raise (ValueError
                 [Text "X and y must have the same number of samples. ";
                  Text "X has "; FInt (Z.of_nat xlen');
                  Text " samples, while y has "; FInt (Z.of_nat ylen');
                  Text " samples."])
      else ret tt
  end.

(** The loop of [_unpack_inputs]: [i] and [cc] are the loop variables,
    [components] what is left of [self._list_components()]. *)
Fixpoint unpack_loop (self : t) (X : value) (n_samples : nat) (h : heap)
    (components : list loc) (i cc : nat) : result (list ndarray.t) :=
  match components with
  | [] => ret []
  | bas :: components =>
      let* widths := __getattr__ self "_n_basis_input_" h in
      let* n_input := value_getitem widths i in
      let* cols := value_slice_columns X cc (cc + n_input) in
      let* ish := Basis.getattr h bas "_input_shape_" in
      let* ish := match ish with
                  | VTuple sh => ret sh
                  | _ => raise not_iterable
                  end in
      let* x := ndarray.reshape cols (n_samples :: ish) in
      let* out := unpack_loop self X n_samples h components (S i) (cc + n_input) in
      ret (x :: out)
  end.

Definition _unpack_inputs (self : t) (X : value) (h : heap)
    : result (list ndarray.t) :=
  let* sh := value_getattr X "shape" in
  let* n_samples := value_getitem sh 0 in
  unpack_loop self X n_samples h (Basis._list_components h (_basis self)) 0 0.

Section Collaborators.
(** [Basis.setup_basis] and [Basis._compute_features] are defined in
    [_basis.py]; the adapter only calls them. *)
Variable Basis_setup_basis : loc -> list ndarray.t -> M unit.
Variable Basis__compute_features : loc -> list ndarray.t -> M ndarray.t.

Definition fit (self : t) (X y : value) : M t :=
  do* _ := readM (_check_initialized (_basis self)) in
  do* _ := readM (_check_input self X y) in
  do* inputs := readM (_unpack_inputs self X) in
  do* _ := Basis_setup_basis (_basis self) inputs in
  retM self.

Definition transform (self : t) (X y : value) : M ndarray.t :=
  do* _ := readM (_check_initialized (_basis self)) in
  do* inputs := readM (_unpack_inputs self X) in
  Basis__compute_features (_basis self) inputs.

Definition fit_transform (self : t) (X y : value) : M ndarray.t :=
  do* _ := fit self X y in
  transform self X VNone.

End Collaborators.

(** [__setattr__].  The attribute [_basis] holds a basis in this model,
    so the first two branches are given for a value that is one. *)
Definition __setattr__ (self : t) (name : string) (v : value) : M t :=
  if String.eqb name "_basis" then
    match v with
    | VRef b => retM {| _basis := b |}
    | _ => raiseM (TypeError [Text "not a basis"])
    end
  else if String.eqb name "basis" then
    match v with
    | VRef b =>
        do* _ := readM (_check_initialized b) in
        retM {| _basis := b |}
    | _ => raiseM (AttributeError "_n_basis_input_")
    end
  else
    do* has := readM (fun h => ret (Basis.hasattr h (_basis self) name)) in
    if has : bool then
      do* _ := Basis.setattr (_basis self) name v in
      retM self
    else
      raiseM (ValueError
                [Text "Only setting _basis or existing attributes of _basis is allowed."]).

Definition __add__ (self other : t) : M t :=
  do* b := Basis.__add__ (_basis self) (_basis other) in
  __init__ b.

Definition __mul__ (self other : t) : M t :=
  do* b := Basis.__mul__ (_basis self) (_basis other) in
  __init__ b.

Definition __pow__ (self : t) (exponent : value) : M t :=
  do* b := Basis.__pow__ (_basis self) exponent in
  __init__ b.

(** [self * self * ... * self] with [n] further factors, by [__mul__]. *)
Fixpoint mul_chain (n : nat) (self acc : t) : M t :=
  match n with
  | O => retM acc
  | S n => do* acc := __mul__ acc self in mul_chain n self acc
  end.

(** [__getstate__]: the state that is pickled. *)
Definition __getstate__ (self : t) : gmap string value :=
  {[ "_basis" := VRef (_basis self) ]}.

(** [__setstate__] can fail in a way of its own: a state without the key. *)
Inductive setstate_error : Type :=
| KeyError (key : string)
| Raised (e : exn).

(** [__setstate__], on the object that unpickling has created without
    calling [__init__]; the assignment goes through [__setattr__]. *)
Definition __setstate__ (self : t) (state : gmap string value) (h : heap)
    : (setstate_error + t) * heap :=
  match state !! "_basis" with
  | None => (inl (KeyError "_basis"), h)
  | Some v =>
      match __setattr__ self "_basis" v h with
      | (inr self', h') => (inr self', h')
      | (inl e, h') => (inl (Raised e), h')
      end
  end.

(** [__sklearn_clone__]: [cloned_obj._basis.kernel_ = None] assigns the
    attribute of the basis object itself. *)
Definition __sklearn_clone__ (self : t) : M t :=
  do* b := copy.deepcopy (_basis self) in
  do* cloned_obj := __init__ b in
  do* _ := Basis.setattr (_basis cloned_obj) "kernel_" VNone in
  retM cloned_obj.

Section Parameters.
(** [Basis.set_params] and [Basis.get_params] are defined in [_basis.py];
    the adapter only calls them. *)
Variable Basis_set_params : loc -> gmap string value -> M loc.
Variable Basis_get_params : loc -> bool -> heap -> gmap string value.

Definition both_message : message :=
  [Text "Set either new _basis object or parameters for existing _basis, not both."].

(** [set_params].  The method assigns [self._basis] before it may raise,
    so the result is the outcome, the adapter as the call leaves it, and
    the heap. *)
Definition set_params (self : t) (parameters : gmap string value) (h : heap)
    : result t * t * heap :=
  let new_basis := default VNone (parameters !! "_basis") in
  let parameters := delete "_basis" parameters in
  match new_basis with
  | VNone =>
      match Basis_set_params (_basis self) parameters h with
      | (inr b, h') => (inr {| _basis := b |}, {| _basis := b |}, h')
      | (inl e, h') => (inl e, self, h')
      end
  | _ =>
      match __setattr__ self "_basis" new_basis h with
      | (inr self', h') =>
          if (0 <? size parameters)%nat
          then (inl (ValueError both_message), self', h')
          else (inr self', self', h')
      | (inl e, h') => (inl e, self, h')
      end
  end.

(** [get_params]: in [{"_basis": ..., **d}] the entries of [d] win. *)
Definition get_params (self : t) (deep : bool) (h : heap)
    : gmap string value :=
  Basis_get_params (_basis self) deep h ∪ {[ "_basis" := VRef (_basis self) ]}.

End Parameters.

End TransformerBasis.

(* ===================================================================== *)
(** * The structured feature container *)
(* ===================================================================== *)

Module FeaturePytree.

(** Modelled from the spec: the class [FeaturePytree] is not among the
    sources, only its use in [docs/api_guide/plot_03_glm_pytree.py] is.
    The container maps string keys to array blocks that share their
    leading-axis length (section 3); that length is established by the
    first entry (section 4.5). *)
Record t : Type := mk {
  data : gmap string ndarray.t;
  _num_time_points : option nat
}.

Definition empty : t := mk ∅ None.

Definition __len__ (self : t) : nat := default 0%nat (_num_time_points self).

(** Modelled from the spec: [container[key] = value] validates array-ness
    and the leading-axis length against the existing entries, or
    establishes the length if it is the first entry; a violation is a
    value error raised at the assignment (sections 4.5 and 7).  The spec
    fixes the exception class, not the text of the messages.  The
    container after the statement is the second component. *)
Definition __setitem__ (key : string) (v : value) (self : t)
    : result unit * t :=
  match v with
  | VArray a =>
      match ndarray.shape a with
      | n :: _ =>
          match _num_time_points self with
          | Some m =>
              if (n =? m)%nat
              then (ret tt, {| data := <[key := a]> (data self);
                               _num_time_points := Some m |})
              else (raise (ValueError
                             [Text "leading-axis length "; FInt (Z.of_nat n);
                              Text " differs from "; FInt (Z.of_nat m)]),
                    self)
          | None =>
              (ret tt, {| data := <[key := a]> (data self);
                          _num_time_points := Some n |})
          end
      | [] => (raise (ValueError [Text "a scalar is not an array block"]), self)
      end
  | _ => (raise (ValueError [Text "the value is not an array"]), self)
  end.

(** Construction from named arrays: one assignment per entry. *)
Fixpoint __init__ (kwargs : list (string * value)) (self : t) : result unit * t :=
  match kwargs with
  | [] => (ret tt, self)
  | (key, v) :: kwargs =>
      match __setitem__ key v self with
      | (inr _, self') => __init__ kwargs self'
      | (inl e, self') => (inl e, self')
      end
  end.

End FeaturePytree.

(* ===================================================================== *)
(** * Vocabulary of the statements *)
(* ===================================================================== *)

(** A rational that is an integer. *)
Definition integral (x : Q) : Prop := exists k : Z, (x == inject_Z k)%Q.

(** [x] is within the tolerance of [np.isclose] of the integer nearest
    to it. *)
Definition near_integer (x : Q) : Prop :=
  (Qabs (x - inject_Z (py_round x))
   <= np.atol + np.rtol * Qabs (inject_Z (py_round x)))%Q.

(** The widths [_check_width] turns down. *)
Definition width_rejected (width : Q) : Prop :=
  (width <= 1)%Q \/ ~ near_integer (2 * width).

(** In a well-formed heap the operands of a composite were allocated
    before the composite: the object graph is a forest without cycles. *)
Definition heap_wf (h : heap) : Prop :=
  forall b o op l r,
    h !! b = Some o -> operands o = Some (op, l, r) ->
    (l < b)%nat /\ (r < b)%nat.

(** What a basis is, apart from where its objects live: its attributes
    and, for a composite, the operator and the two operand bases.  Two
    bases with the same tree have the same configuration throughout and
    compute the same features. *)
Inductive btree : Type :=
| TLeaf (a : gmap string value)
| TNode (op : binop) (a : gmap string value) (l r : btree).

Inductive has_tree (h : heap) : loc -> btree -> Prop :=
| has_leaf b o :
    h !! b = Some o -> operands o = None ->
    has_tree h b (TLeaf (attrs o))
| has_node b o op l r tl tr :
    h !! b = Some o -> operands o = Some (op, l, r) ->
    has_tree h l tl -> has_tree h r tr ->
    has_tree h b (TNode op (attrs o) tl tr).

(** The objects a basis consists of. *)
Inductive reachable (h : heap) : loc -> loc -> Prop :=
| reach_self b : reachable h b b
| reach_left b o op l r c :
    h !! b = Some o -> operands o = Some (op, l, r) ->
    reachable h l c -> reachable h b c
| reach_right b o op l r c :
    h !! b = Some o -> operands o = Some (op, l, r) ->
    reachable h r c -> reachable h b c.

Definition root_attrs (t : btree) : gmap string value :=
  match t with TLeaf a => a | TNode _ a _ _ => a end.

(** The tree of [l * r]. *)
Definition tree_mul (l r : btree) : btree :=
  TNode Mul (Basis.composite_attrs Mul (root_attrs l) (root_attrs r)) l r.

(** The tree of [acc * t * ... * t] with [n] factors [t]. *)
Fixpoint tree_mul_repeat (n : nat) (t acc : btree) : btree :=
  match n with
  | O => acc
  | S n => tree_mul_repeat n t (tree_mul acc t)
  end.

(** Every object from address [n0] on refers to objects from [n0] on. *)
Definition closed_above (n0 : nat) (h : heap) : Prop :=
  forall b o op l r,
    (n0 <= b)%nat -> h !! b = Some o -> operands o = Some (op, l, r) ->
    (n0 <= l)%nat /\ (n0 <= r)%nat.

(** The invariant of a deep copy in progress: the copies made so far are
    at addresses from [n0] on, where [n0] is the size of the heap when the
    copy began, and each has the tree of its original. *)
Definition copying (n0 : nat) (memo : gmap loc loc) (h : heap) : Prop :=
  (n0 <= length h)%nat
  /\ heap_wf h
  /\ closed_above n0 h
  /\ forall k v, memo !! k = Some v ->
       (n0 <= v < length h)%nat
       /\ exists t, has_tree h k t /\ has_tree h v t.

(** Leaf [bas] has an input shape, and it holds [w] values per sample. *)
Definition input_shape_holds (h : heap) (bas : loc) (w : nat) : Prop :=
  exists ish, Basis.getattr h bas "_input_shape_" = inr (VTuple ish)
              /\ ndarray.size_of ish = w.

(** Array [x] is the input of leaf [bas] for [n_samples] samples. *)
Definition is_input_of (h : heap) (n_samples : nat) (bas : loc) (x : ndarray.t)
    : Prop :=
  exists ish, Basis.getattr h bas "_input_shape_" = inr (VTuple ish)
              /\ ndarray.shape x = n_samples :: ish.

(** The tree [t] after [name] has been assigned at its root. *)
Definition with_root_attr (name : string) (v : value) (t : btree) : btree :=
  match t with
  | TLeaf a => TLeaf (<[name := v]> a)
  | TNode op a l r => TNode op (<[name := v]> a) l r
  end.

(** ** Concrete objects used by the examples *)

(** A stand-in for [Basis.__init__] that stores its arguments. *)
Definition store_Basis_attrs (n : Z) (mode : string) (window_size : option Z)
    (bounds : option (R * R)) (label : string) : result Basis_attrs :=
  ret {| n_basis_funcs := n; mode := mode; window_size := window_size;
         bounds := bounds; label := label |}.

Definition five_bumps : RaisedCosineBasisLinear.t :=
  {| RaisedCosineBasisLinear.base :=
       {| n_basis_funcs := 5; mode := "eval"; window_size := None;
          bounds := None; label := "RaisedCosineBasisLinear" |};
     RaisedCosineBasisLinear._n_input_dimensionality := 1;
     RaisedCosineBasisLinear._width := 2;
     RaisedCosineBasisLinear._rescale_samples := true |}.

(** A width that is a float, [1.5 + 2**-20], with [2*width] not an
    integer. *)
Definition width_off_by_a_hair : Q := 1572865 # 1048576.

(** Samples that lie in [0, 1] already, with the bounds [(0, 1)]. *)
Definition already_rescaled (sample_pts : list R) (bounds : option (R * R))
    : result (list R * (R * R)) :=
  ret (sample_pts, (0, 1)%R).

Definition five_log_bumps : RaisedCosineBasisLog.t :=
  {| RaisedCosineBasisLog.super :=
       RaisedCosineBasisLinear.with_rescale_samples five_bumps false;
     RaisedCosineBasisLog._time_scaling := 50;
     RaisedCosineBasisLog.enforce_decay_to_zero := true |}.

(** [np.arange(size).reshape(sh)] *)
Definition arange_array (sh : list nat) : ndarray.t :=
  ndarray.mk sh ((fun i => inject_Z (Z.of_nat i)) <$> seq 0 (ndarray.size_of sh)).

(** A leaf basis with [n] functions and the given input widths. *)
Definition leaf (n : Z) (widths : value) (input_shape : list nat) : basis_obj :=
  {| attrs := <["n_basis_funcs" := VInt n]>
                (<["_n_basis_input_" := widths]>
                   (<["_input_shape_" := VTuple input_shape]> ∅));
     operands := None |}.

(** A heap with one leaf that expects two columns, and one whose input
    shape has not been set. *)
Definition two_column_heap : heap := [leaf 5 (VTuple [2%nat]) [2%nat]].
Definition fresh_basis_heap : heap := [leaf 5 VNone []].

Definition wrapped : TransformerBasis.t := {| TransformerBasis._basis := 0%nat |}.

(** Stand-ins for [setup_basis] and [_compute_features]: the first does
    nothing, the second returns its first input. *)
Definition setup_nothing (b : loc) (inputs : list ndarray.t) : M unit :=
  retM tt.
Definition first_input (b : loc) (inputs : list ndarray.t) : M ndarray.t :=
  retM (default (ndarray.zeros []) (head inputs)).

(** Two leaf bases with one input column each, and their adapters. *)
Definition two_leaf_heap : heap :=
  [leaf 5 (VTuple [1%nat]) [1%nat]; leaf 4 (VTuple [1%nat]) [1%nat]].
Definition first_leaf : TransformerBasis.t := {| TransformerBasis._basis := 0%nat |}.
Definition second_leaf : TransformerBasis.t := {| TransformerBasis._basis := 1%nat |}.

(** The container of [plot_03_glm_pytree.py], before [feature_3] is added. *)
Definition example_pytree : FeaturePytree.t :=
  snd (FeaturePytree.__init__
         [("feature_0", VArray (ndarray.zeros [100; 1; 2]%nat));
          ("feature_1", VArray (ndarray.zeros [100; 2]%nat));
          ("feature_2", VArray (ndarray.zeros [100; 5]%nat))]
         FeaturePytree.empty).

(** A leaf with a convolution kernel, and a stand-in for
    [Basis.get_params] that reports the number of basis functions. *)
Definition kernel_heap : heap :=
  [{| attrs := <["kernel_" := VArray (ndarray.zeros [3; 5]%nat)]>
                 (attrs (leaf 5 (VTuple [1%nat]) [1%nat]));
      operands := None |}].

Definition count_param (b : loc) (deep : bool) (h : heap) : gmap string value :=
  match Basis.getattr h b "n_basis_funcs" with
  | inr v => {[ "n_basis_funcs" := v ]}
  | inl _ => ∅
  end.

Definition keep_params (b : loc) (parameters : gmap string value) : M loc :=
  retM b.

(* ===================================================================== *)
(** * Properties: the numpy and builtin functions *)
(* ===================================================================== *)

Lemma getitem_Some {A : Type} (l : list A) (i : nat) (a : A) :
  l !! i = Some a -> getitem l i = inr a.
Proof. unfold getitem. intros ->. reflexivity. Qed.

(** [round] is the identity on integers. *)
Lemma py_round_inject_Z (x : Q) (k : Z) : (x == inject_Z k)%Q -> py_round x = k.
Proof.
  intros Hx. unfold py_round.
  assert (Hf : Qfloor x = k) by (rewrite Hx; apply Qfloor_Z).
  rewrite Hf.
  assert (Hc : Qcompare (x - inject_Z k) (1 # 2) = Lt).
  { rewrite Hx. apply -> Qlt_alt. Lqa.lra. }
  rewrite Hc. reflexivity.
Qed.

Lemma isclose_refl_inject_Z (x : Q) (k : Z) :
  (x == inject_Z k)%Q -> np.isclose x (inject_Z k) = true.
Proof.
  intros Hx. unfold np.isclose. apply Qle_bool_iff.
  assert (H0 : (Qabs (x - inject_Z k) == 0)%Q).
  { rewrite Hx. unfold Qminus. rewrite Qplus_opp_r. reflexivity. }
  rewrite H0.
  assert (0 <= Qabs (inject_Z k))%Q by apply Qabs_nonneg.
  unfold np.atol, np.rtol. Lqa.nra.
Qed.

(* ===================================================================== *)
(** * Properties: validation of the raised-cosine hyper-parameters *)
(* ===================================================================== *)

Lemma isclose_near_integer (width : Q) :
  np.isclose (width * 2) (inject_Z (py_round (2 * width))) = true
  <-> near_integer (2 * width).
Proof.
  unfold np.isclose, near_integer. rewrite Qle_bool_iff.
  rewrite (Qmult_comm width 2). reflexivity.
Qed.

Lemma check_width_rejected (width : Q) :
  width_rejected width ->
  RaisedCosineBasisLinear._check_width width
  = inl (ValueError (RaisedCosineBasisLinear.width_message width)).
Proof.
  intros Hrej. unfold RaisedCosineBasisLinear._check_width.
  destruct (Qle_bool width 1) eqn:Hle; [reflexivity|].
  destruct (np.isclose _ _) eqn:Hclose; [|reflexivity].
  exfalso. destruct Hrej as [Hw | Hn].
  - apply Qle_bool_iff in Hw. congruence.
  - apply Hn, isclose_near_integer, Hclose.
Qed.

Lemma check_width_accepted (width : Q) :
  ~ width_rejected width ->
  RaisedCosineBasisLinear._check_width width = inr tt.
Proof.
  intros Hacc. unfold RaisedCosineBasisLinear._check_width.
  destruct (Qle_bool width 1) eqn:Hle.
  { exfalso. apply Hacc. left. apply Qle_bool_iff, Hle. }
  destruct (np.isclose _ _) eqn:Hclose; [reflexivity|].
  exfalso. apply Hacc. right. intros Hn.
  apply isclose_near_integer in Hn. congruence.
Qed.

Lemma width_rejected_dec (width : Q) :
  width_rejected width \/ ~ width_rejected width.
Proof.
  destruct (RaisedCosineBasisLinear._check_width width) as [e|[]] eqn:Hc.
  - left. unfold RaisedCosineBasisLinear._check_width in Hc.
    destruct (Qle_bool width 1) eqn:Hle.
    + left. apply Qle_bool_iff, Hle.
    + destruct (np.isclose _ _) eqn:Hclose; [discriminate|].
      right. intros Hn. apply isclose_near_integer in Hn. congruence.
  - right. intros Hrej. rewrite (check_width_rejected _ Hrej) in Hc. discriminate.
Qed.

Lemma integral_width_accepted (width : Q) :
  (1 < width)%Q -> integral (2 * width) -> ~ width_rejected width.
Proof.
  intros Hgt [k Hk] [Hle | Hn].
  - apply Qlt_not_le in Hgt. contradiction.
  - apply Hn. apply isclose_near_integer.
    rewrite (py_round_inject_Z _ _ Hk).
    apply isclose_refl_inject_Z. rewrite Qmult_comm. exact Hk.
Qed.

Section WidthValidation.
Variable Basis__init__ :
  Z -> string -> option Z -> option (R * R) -> string -> result Basis_attrs.

(** C4, amended.  Constructing a raised-cosine basis (once [Basis.__init__]
    has accepted the other arguments) or assigning its [width] fails with
    the value error whose message interpolates [2 * width] if and only if
    [width <= 1] or [2 * width] is farther from the nearest integer than
    the tolerance of [np.isclose] ([1e-8 + 1e-5 * |round(2 * width)|]);
    every other width is accepted and stored, in particular every
    [width > 1] with [2 * width] an integer. *)
Theorem width_validation (self : RaisedCosineBasisLinear.t)
    (n : Z) (mode : string) (window_size : option Z)
    (bounds : option (R * R)) (label : string) (base : Basis_attrs)
    (width : Q) :
  Basis__init__ n mode window_size bounds label = inr base ->
  let err : exn := ValueError (RaisedCosineBasisLinear.width_message width) in
  let built :=
    {| RaisedCosineBasisLinear.base := base;
       RaisedCosineBasisLinear._n_input_dimensionality := 1;
       RaisedCosineBasisLinear._width := width;
       RaisedCosineBasisLinear._rescale_samples := true |} in
  (RaisedCosineBasisLinear._check_width width = inl err
     <-> width_rejected width)
  /\ (RaisedCosineBasisLinear.set_width self width = inl err
       <-> width_rejected width)
  /\ (RaisedCosineBasisLinear.__init__ Basis__init__
         n mode width window_size bounds label = inl err
       <-> width_rejected width)
  /\ (width_rejected width ->
       forall time_scaling decay,
         RaisedCosineBasisLog.__init__ Basis__init__
           n mode width time_scaling decay window_size bounds label = inl err)
  /\ (~ width_rejected width ->
       RaisedCosineBasisLinear._check_width width = inr tt
       /\ RaisedCosineBasisLinear.set_width self width
          = inr (RaisedCosineBasisLinear.with_width self width)
       /\ RaisedCosineBasisLinear.__init__ Basis__init__
            n mode width window_size bounds label = inr built)
  /\ ((1 < width)%Q -> integral (2 * width) -> ~ width_rejected width)
  /\ In (FNum (2 * width)) (RaisedCosineBasisLinear.width_message width).
Proof.
  intros Hbase err built.
  assert (Hrej : width_rejected width ->
                 RaisedCosineBasisLinear._check_width width = inl err)
    by apply check_width_rejected.
  assert (Hacc : ~ width_rejected width ->
                 RaisedCosineBasisLinear._check_width width = inr tt)
    by apply check_width_accepted.
  assert (Hiff : forall (A : Type) (r : result A) (a : A),
             (width_rejected width -> r = inl err) ->
             (~ width_rejected width -> r = inr a) ->
             (r = inl err <-> width_rejected width)).
  { intros A r a H1 H2. split; [|exact H1].
    intros Hr. destruct (width_rejected_dec width) as [H|H]; [exact H|].
    rewrite (H2 H) in Hr. discriminate. }
  assert (Hset_rej : width_rejected width ->
                     RaisedCosineBasisLinear.set_width self width = inl err).
  { intros H. unfold RaisedCosineBasisLinear.set_width.
    rewrite (Hrej H). reflexivity. }
  assert (Hset_acc : ~ width_rejected width ->
                     RaisedCosineBasisLinear.set_width self width
                     = inr (RaisedCosineBasisLinear.with_width self width)).
  { intros H. unfold RaisedCosineBasisLinear.set_width.
    rewrite (Hacc H). reflexivity. }
  assert (Hinit_rej : width_rejected width ->
                      RaisedCosineBasisLinear.__init__ Basis__init__
                        n mode width window_size bounds label = inl err).
  { intros H. unfold RaisedCosineBasisLinear.__init__.
    rewrite Hbase. cbn. rewrite (Hrej H). reflexivity. }
  assert (Hinit_acc : ~ width_rejected width ->
                      RaisedCosineBasisLinear.__init__ Basis__init__
                        n mode width window_size bounds label = inr built).
  { intros H. unfold RaisedCosineBasisLinear.__init__.
    rewrite Hbase. cbn. rewrite (Hacc H). reflexivity. }
  split; [apply (Hiff unit _ tt Hrej Hacc)|].
  split; [apply (Hiff _ _ _ Hset_rej Hset_acc)|].
  split; [apply (Hiff _ _ _ Hinit_rej Hinit_acc)|].
  split.
  { intros H time_scaling decay. unfold RaisedCosineBasisLog.__init__.
    rewrite (Hinit_rej H). reflexivity. }
  split; [intros H; auto|].
  split; [apply integral_width_accepted|].
  cbn. tauto.
Qed.

End WidthValidation.

(** [width_validation] at the default width 2 of a basis of five bumps. *)
Lemma width_validation_witness :
  store_Basis_attrs 5 "eval" None None "RaisedCosineBasisLinear"
  = inr (RaisedCosineBasisLinear.base five_bumps)
  /\ RaisedCosineBasisLinear.__init__ store_Basis_attrs
       5 "eval" 2 None None "RaisedCosineBasisLinear" = inr five_bumps.
Proof.
  split; [reflexivity|].
  pose proof (width_validation store_Basis_attrs five_bumps
                5 "eval" None None "RaisedCosineBasisLinear"
                (RaisedCosineBasisLinear.base five_bumps) 2 eq_refl) as H.
  cbv zeta in H.
  destruct H as (_ & _ & _ & _ & Hacc & Hint & _).
  apply Hacc. apply Hint.
  - reflexivity.
  - exists 4%Z. reflexivity.
Defined.

(** C4 as the specification states it, with "2*width is not an integer" in place
    of the tolerance, fails: [1.5 + 2**-20] is accepted. *)
Lemma width_off_by_a_hair_accepted :
  ~ ((exists m, RaisedCosineBasisLinear._check_width width_off_by_a_hair
                = inl (ValueError m))
     <-> ((width_off_by_a_hair <= 1)%Q \/ ~ integral (2 * width_off_by_a_hair))).
Proof.
  intros [_ H].
  destruct H as [m Hm].
  - right. intros [k Hk]. unfold width_off_by_a_hair, Qeq in Hk.
    cbn in Hk. lia.
  - vm_compute in Hm. discriminate.
Qed.

(* ===================================================================== *)
(** * Properties: evaluation of the raised-cosine families *)
(* ===================================================================== *)

Lemma INR_pred_to_nat (num : Z) :
  (1 <= num)%Z -> INR (Nat.pred (Z.to_nat num)) = IZR (num - 1).
Proof.
  intros Hnum. rewrite INR_IZR_INZ. f_equal. lia.
Qed.

(** [np.linspace] with at least two samples: sample [j] is
    [start + j * step], also the last one. *)
Lemma linspace_lookup (start stop : R) (num : Z) :
  (2 <= num)%Z ->
  exists l, np.linspace start stop num = inr l
    /\ length l = Z.to_nat num
    /\ forall j, (j < Z.to_nat num)%nat ->
         l !! j = Some (start + INR j * ((stop - start) / IZR (num - 1)))%R.
Proof.
  intros Hnum. unfold np.linspace.
  replace (num <? 0)%Z with false by (symmetry; apply Z.ltb_ge; lia).
  replace (0 <? num - 1)%Z with true by (symmetry; apply Z.ltb_lt; lia).
  replace (1 <? num)%Z with true by (symmetry; apply Z.ltb_lt; lia).
  eexists. split; [reflexivity|].
  unfold np.set_last. rewrite length_insert, !length_fmap, length_seq.
  split; [reflexivity|].
  intros j Hj.
  destruct (decide (j = Nat.pred (Z.to_nat num))) as [->|Hne].
  - rewrite list_lookup_insert_eq
      by (rewrite !length_fmap, length_seq; lia).
    f_equal. rewrite INR_pred_to_nat by lia.
    assert (IZR (num - 1) <> 0)%R by (apply not_0_IZR; lia).
    field. assumption.
  - rewrite list_lookup_insert_ne by congruence.
    rewrite !list_lookup_fmap, lookup_seq_lt by lia.
    cbn. f_equal. ring.
Qed.

Lemma check_n_basis_min_ok (name : string) (self : RaisedCosineBasisLinear.t) :
  RaisedCosineBasisLinear._check_n_basis_min name self = inr tt ->
  (2 <= n_basis_funcs (RaisedCosineBasisLinear.base self))%Z.
Proof.
  unfold RaisedCosineBasisLinear._check_n_basis_min.
  destruct (Z.ltb_spec (n_basis_funcs (RaisedCosineBasisLinear.base self)) 2);
    [discriminate | auto].
Qed.

(** A global name that the namespace binds stands for its denotation. *)
Lemma global_bound {A : Type} (names : list string) (name : string)
    (denotation : A) :
  In name names -> global names name denotation = inr denotation.
Proof.
  intros Hin. unfold global.
  replace (existsb (String.eqb name) names) with true; [reflexivity|].
  symmetry. apply existsb_exists. exists name.
  split; [exact Hin | apply String.eqb_refl].
Qed.

Section Evaluation.
Variable min_max_rescale_samples :
  list R -> option (R * R) -> result (list R * (R * R)).

(** The body of the parent's [__call__] where it gets past line 155 (the
    instance does not rescale, or the namespace does bind the rescaler),
    once the peaks are known to be evenly spaced from 0 with step
    [delta]: entry [(i, j)] of the matrix is the raised cosine of sample
    [i] around peak [j]. *)
Lemma call_with_entry (names : list string)
    (self : RaisedCosineBasisLinear.t)
    (compute_peaks : result (list R)) (peaks pts : list R)
    (sample_pts : list R) (delta : R) (i j : nat) (x : R) :
  (if RaisedCosineBasisLinear._rescale_samples self
   then In "min_max_rescale_samples" names
        /\ exists used, min_max_rescale_samples sample_pts
                          (bounds (RaisedCosineBasisLinear.base self))
                        = inr (pts, used)
   else pts = sample_pts) ->
  compute_peaks = inr peaks ->
  (2 <= length peaks)%nat ->
  (forall k, (k < length peaks)%nat -> peaks !! k = Some (INR k * delta)%R) ->
  pts !! i = Some x ->
  (j < length peaks)%nat ->
  exists M row,
    RaisedCosineBasisLinear.call_with min_max_rescale_samples names
      compute_peaks self sample_pts = inr M
    /\ length M = length pts
    /\ M !! i = Some row
    /\ length row = length peaks
    /\ row !! j
       = Some (RaisedCosineBasisLinear.raised_cosine delta
                 (Q2R (RaisedCosineBasisLinear._width self)) x (INR j * delta)).
Proof.
  intros Hpts Hpeaks Hlen Hlook Hx Hj.
  unfold RaisedCosineBasisLinear.call_with.
  assert (Hres : (if RaisedCosineBasisLinear._rescale_samples self
                  then let* rescale := global names "min_max_rescale_samples"
                                         min_max_rescale_samples in
                       let* r := rescale sample_pts
                                   (bounds (RaisedCosineBasisLinear.base self)) in
                       ret (fst r)
                  else ret sample_pts) = inr pts).
  { destruct (RaisedCosineBasisLinear._rescale_samples self).
    - destruct Hpts as [Hbound [used Hused]].
      rewrite (global_bound _ _ _ Hbound). cbn [bind].
      rewrite Hused. reflexivity.
    - subst pts. reflexivity. }
  rewrite Hres, Hpeaks. cbn [bind].
  rewrite (getitem_Some peaks 1 _ (Hlook 1%nat ltac:(lia))). cbn [bind].
  rewrite (getitem_Some peaks 0 _ (Hlook 0%nat ltac:(lia))). cbn [bind].
  replace (INR 1 * delta - INR 0 * delta)%R with delta by (cbn; lra).
  eexists. eexists. split; [reflexivity|].
  split; [apply length_fmap|].
  split; [rewrite list_lookup_fmap, Hx; reflexivity|].
  split; [apply length_fmap|].
  rewrite list_lookup_fmap, (Hlook j Hj). reflexivity.
Qed.

(** What the body of [RaisedCosineBasisLinear.__call__] computes in a
    namespace that does bind the rescaler: entry [(i, j)] is
    [0.5 * (cos(clip(pi * (x_i - peak_j) / (delta * width), -pi, pi)) + 1)],
    where [x_i] is sample [i] after [min_max_rescale_samples],
    [peak_j = j * delta] and [delta = 1 / (n_basis_funcs - 1)]: the
    [n_basis_funcs] evenly spaced points from 0 to 1. *)
Lemma linear_call_with_entry (names : list string)
    (self : RaisedCosineBasisLinear.t)
    (sample_pts rescaled : list R) (used : R * R) (i j : nat) (x : R) :
  In "min_max_rescale_samples" names ->
  RaisedCosineBasisLinear.valid self ->
  min_max_rescale_samples sample_pts
    (bounds (RaisedCosineBasisLinear.base self)) = inr (rescaled, used) ->
  rescaled !! i = Some x ->
  (j < Z.to_nat (n_basis_funcs (RaisedCosineBasisLinear.base self)))%nat ->
  let n := n_basis_funcs (RaisedCosineBasisLinear.base self) in
  let width := Q2R (RaisedCosineBasisLinear._width self) in
  let delta := (1 / IZR (n - 1))%R in
  let peak := (INR j * delta)%R in
  exists M row,
    RaisedCosineBasisLinear.call_with min_max_rescale_samples names
      (RaisedCosineBasisLinear._compute_peaks self) self sample_pts
    = inr M
    /\ length M = length rescaled
    /\ M !! i = Some row
    /\ length row = Z.to_nat n
    /\ row !! j
       = Some (0.5 * (cos (np.clip (PI * (x - peak) / (delta * width))
                             (- PI) PI) + 1))%R
    /\ (INR (Z.to_nat n - 1) * delta = 1)%R.
Proof.
  intros Hbound (Hmin & _ & Hresc) Hpts Hx Hj n width delta peak.
  apply check_n_basis_min_ok in Hmin. fold n in Hmin, Hj.
  destruct (linspace_lookup 0 1 n Hmin) as (peaks & Hpeaks & Hlen & Hlook).
  destruct (call_with_entry names self
              (RaisedCosineBasisLinear._compute_peaks self)
              peaks rescaled sample_pts delta i j x) as (M & row & H);
    try assumption.
  - rewrite Hresc. split; [exact Hbound|]. exists used. exact Hpts.
  - lia.
  - intros k Hk. rewrite Hlook by lia. f_equal. unfold delta. lra.
  - lia.
  - exists M, row. rewrite Hlen in H.
    destruct H as (H1 & H2 & H3 & H4 & H5).
    repeat (split; [assumption|]).
    unfold delta. replace (Z.to_nat n - 1)%nat with (Nat.pred (Z.to_nat n)) by lia.
    rewrite INR_pred_to_nat by lia.
    assert (IZR (n - 1) <> 0)%R by (apply not_0_IZR; lia).
    field. assumption.
Qed.

(** C1.  [RaisedCosineBasisLinear.__call__] does not return the matrix of
    raised cosines.  On every instance that rescales its samples (the
    constructor sets [_rescale_samples] to [True], and [valid] asks for
    it) and on every sample array it raises [NameError]: line 155 calls
    [min_max_rescale_samples], a name the module neither imports nor
    defines.  No peak is computed and no entry is produced. *)
Theorem linear_call_raises_NameError (self : RaisedCosineBasisLinear.t)
    (sample_pts : list R) :
  RaisedCosineBasisLinear._rescale_samples self = true ->
  RaisedCosineBasisLinear.__call__ min_max_rescale_samples self sample_pts
  = inl (NameError "min_max_rescale_samples").
Proof.
  intros Hresc.
  unfold RaisedCosineBasisLinear.__call__, RaisedCosineBasisLinear.call_with.
  rewrite Hresc. reflexivity.
Qed.

End Evaluation.

Lemma check_width_ok_gt_1 (width : Q) :
  RaisedCosineBasisLinear._check_width width = inr tt -> (1 < Q2R width)%R.
Proof.
  unfold RaisedCosineBasisLinear._check_width.
  destruct (Qle_bool width 1) eqn:Hle; [discriminate|]. intros _.
  assert (Hlt : (1 < width)%Q).
  { apply Qnot_le_lt. intros H. apply Qle_bool_iff in H. congruence. }
  apply Qlt_Rlt in Hlt. replace (Q2R 1) with 1%R in Hlt; [exact Hlt|].
  unfold Q2R. cbn. lra.
Qed.

Lemma check_time_scaling_ok_pos (time_scaling : Q) :
  RaisedCosineBasisLog._check_time_scaling time_scaling = inr tt ->
  (0 < Q2R time_scaling)%R.
Proof.
  unfold RaisedCosineBasisLog._check_time_scaling.
  destruct (Qle_bool time_scaling 0) eqn:Hle; [discriminate|]. intros _.
  assert (Hlt : (0 < time_scaling)%Q).
  { apply Qnot_le_lt. intros H. apply Qle_bool_iff in H. congruence. }
  apply Qlt_Rlt in Hlt. replace (Q2R 0) with 0%R in Hlt; [exact Hlt|].
  unfold Q2R. cbn. lra.
Qed.

(** The upper edge of the domain stays at 1 under the log-stretch. *)
Lemma log_stretch_1 (time_scaling : Q) :
  (0 < Q2R time_scaling)%R ->
  RaisedCosineBasisLog.log_stretch time_scaling 1 = 1%R.
Proof.
  intros Hpos. unfold RaisedCosineBasisLog.log_stretch.
  rewrite Rmult_1_r.
  assert (0 < ln (Q2R time_scaling + 1))%R.
  { rewrite <- ln_1. apply ln_increasing; lra. }
  field. lra.
Qed.

Lemma clip_PI : np.clip PI (- PI) PI = PI.
Proof.
  unfold np.clip. pose proof PI_RGT_0.
  rewrite Rmax_left by lra. apply Rmin_left. lra.
Qed.

(** The peaks of the log-spaced basis: peak [j] is [j] steps of
    [last_peak / (n_basis_funcs - 1)] from 0. *)
Lemma log_peaks_lookup (self : RaisedCosineBasisLog.t) :
  RaisedCosineBasisLog.valid self ->
  let n := RaisedCosineBasisLog.n_basis self in
  let delta := (RaisedCosineBasisLog.last_peak self / IZR (n - 1))%R in
  exists peaks,
    RaisedCosineBasisLog._compute_peaks self = inr peaks
    /\ length peaks = Z.to_nat n
    /\ (2 <= Z.to_nat n)%nat
    /\ (forall j, (j < Z.to_nat n)%nat -> peaks !! j = Some (INR j * delta)%R).
Proof.
  intros (Hmin & _) n delta.
  apply check_n_basis_min_ok in Hmin.
  fold (RaisedCosineBasisLog.n_basis self) in Hmin. fold n in Hmin.
  unfold RaisedCosineBasisLog._compute_peaks.
  destruct (linspace_lookup 0 (RaisedCosineBasisLog.last_peak self) n Hmin)
    as (peaks & Hpeaks & Hlen & Hlook).
  exists peaks. split; [exact Hpeaks|]. split; [exact Hlen|].
  split; [lia|].
  intros j Hj. rewrite Hlook by exact Hj. f_equal. unfold delta. lra.
Qed.

(** C2.  The peaks of a log-spaced basis are [n_basis_funcs] evenly spaced
    points from 0 to [last_peak], where [last_peak] is 1 without
    decay-to-zero and [1 - width / (n_basis_funcs + width - 1)] with it;
    in the second case the last bump is 0 at the upper edge of the
    (stretched) domain. *)
Theorem log_compute_peaks (self : RaisedCosineBasisLog.t) :
  RaisedCosineBasisLog.valid self ->
  let n := RaisedCosineBasisLog.n_basis self in
  let width := Q2R (RaisedCosineBasisLog.width self) in
  let last_peak :=
    (if RaisedCosineBasisLog.enforce_decay_to_zero self
     then 1 - width / (IZR n + width - 1) else 1)%R in
  let delta := (last_peak / IZR (n - 1))%R in
  exists peaks,
    RaisedCosineBasisLog._compute_peaks self = inr peaks
    /\ length peaks = Z.to_nat n
    /\ peaks !! 0%nat = Some 0%R
    /\ peaks !! (Z.to_nat n - 1)%nat = Some last_peak
    /\ (forall j, (j < Z.to_nat n)%nat -> peaks !! j = Some (INR j * delta)%R)
    /\ (RaisedCosineBasisLog.enforce_decay_to_zero self = true ->
        RaisedCosineBasisLinear.raised_cosine delta width
          (RaisedCosineBasisLog.log_stretch
             (RaisedCosineBasisLog._time_scaling self) 1)
          last_peak = 0%R).
Proof.
  intros Hvalid n width last_peak delta.
  destruct (log_peaks_lookup self Hvalid) as (peaks & Hpeaks & Hlen & Hn2 & Hall).
  change (RaisedCosineBasisLog.last_peak self) with last_peak in Hall.
  fold n in Hlen, Hn2, Hall. fold delta in Hall.
  destruct Hvalid as (_ & Hwidth & _ & Hts).
  apply check_width_ok_gt_1 in Hwidth.
  apply check_time_scaling_ok_pos in Hts.
  fold width in Hwidth.
  assert (Hn : (2 <= IZR n)%R) by (apply IZR_le; lia).
  assert (Hn1 : IZR (n - 1) = (IZR n - 1)%R) by (rewrite minus_IZR; reflexivity).
  exists peaks. split; [exact Hpeaks|]. split; [exact Hlen|].
  split.
  { rewrite Hall by lia. f_equal. cbn. lra. }
  split.
  { rewrite Hall by lia. f_equal. unfold delta.
    replace (Z.to_nat n - 1)%nat with (Nat.pred (Z.to_nat n)) by lia.
    rewrite INR_pred_to_nat by lia. field. rewrite Hn1. lra. }
  split; [exact Hall|].
  intros Hdecay. rewrite log_stretch_1 by exact Hts.
  unfold RaisedCosineBasisLinear.raised_cosine.
  replace (PI * (1 - last_peak) / (delta * width))%R with PI.
  { rewrite clip_PI, cos_PI. lra. }
  unfold delta, last_peak. rewrite Hdecay, Hn1. field.
  repeat split; lra.
Qed.

Section LogEvaluation.
Variable Basis__init__ :
  Z -> string -> option Z -> option (R * R) -> string -> result Basis_attrs.
Variable min_max_rescale_samples :
  list R -> option (R * R) -> result (list R * (R * R)).

(** What the body of [RaisedCosineBasisLog.__call__] computes in a
    namespace that does bind the rescaler: the samples are rescaled, each
    rescaled sample [x] is stretched to
    [log(time_scaling * x + 1) / log(time_scaling + 1)], and the
    raised-cosine formula is applied with the peaks of the log basis. *)
Lemma log_call_with_entry (names : list string)
    (self : RaisedCosineBasisLog.t)
    (sample_pts rescaled : list R) (used : R * R) (i j : nat) (x : R) :
  In "min_max_rescale_samples" names ->
  RaisedCosineBasisLog.valid self ->
  min_max_rescale_samples sample_pts
    (bounds (RaisedCosineBasisLinear.base (RaisedCosineBasisLog.super self)))
  = inr (rescaled, used) ->
  rescaled !! i = Some x ->
  (j < Z.to_nat (RaisedCosineBasisLog.n_basis self))%nat ->
  let n := RaisedCosineBasisLog.n_basis self in
  let width := Q2R (RaisedCosineBasisLog.width self) in
  let delta := (RaisedCosineBasisLog.last_peak self / IZR (n - 1))%R in
  let warped :=
    (ln (Q2R (RaisedCosineBasisLog._time_scaling self) * x + 1)
     / ln (Q2R (RaisedCosineBasisLog._time_scaling self) + 1))%R in
  exists M row,
    RaisedCosineBasisLog.call_with min_max_rescale_samples names self
      sample_pts = inr M
    /\ length M = length rescaled
    /\ M !! i = Some row
    /\ length row = Z.to_nat n
    /\ row !! j
       = Some (0.5 * (cos (np.clip (PI * (warped - INR j * delta)
                                    / (delta * width)) (- PI) PI) + 1))%R.
Proof.
  intros Hbound Hvalid Hpts Hx Hj n width delta warped.
  destruct (log_peaks_lookup self Hvalid) as (peaks & Hpeaks & Hlen & Hn2 & Hall).
  fold n in Hlen, Hn2, Hall. fold delta in Hall.
  destruct Hvalid as (_ & _ & Hresc & _).
  unfold RaisedCosineBasisLog.call_with,
    RaisedCosineBasisLog.transform_samples_with.
  rewrite (global_bound _ _ _ Hbound). cbn [bind].
  rewrite Hpts. cbn [bind fst ret].
  destruct (call_with_entry min_max_rescale_samples names
              (RaisedCosineBasisLog.super self)
              (RaisedCosineBasisLog._compute_peaks self) peaks
              (RaisedCosineBasisLog.log_stretch
                 (RaisedCosineBasisLog._time_scaling self) <$> rescaled)
              (RaisedCosineBasisLog.log_stretch
                 (RaisedCosineBasisLog._time_scaling self) <$> rescaled)
              delta i j warped) as (M & row & H1 & H2 & H3 & H4 & H5).
  - rewrite Hresc. reflexivity.
  - exact Hpeaks.
  - lia.
  - intros k Hk. apply Hall. lia.
  - rewrite list_lookup_fmap, Hx. reflexivity.
  - lia.
  - exists M, row. rewrite length_fmap in H2. rewrite Hlen in H4.
    repeat (split; [assumption|]). exact H5.
Qed.

(** C3.  [RaisedCosineBasisLog._transform_samples] does not rescale and
    stretch the samples, and [__call__] does not return the matrix: on
    every instance and every sample array both raise [NameError], because
    line 353 calls [min_max_rescale_samples] and the module neither
    imports nor defines the name.  The other half of the claim holds:
    assigning a [time_scaling <= 0], or constructing the basis with one,
    fails with a value error; every [time_scaling > 0] is accepted and
    stored. *)
Theorem log_call_NameError_and_time_scaling (self : RaisedCosineBasisLog.t)
    (sample_pts : list R) (time_scaling : Q) :
  let err : exn :=
    ValueError [Text "Only strictly positive time_scaling are allowed, ";
                FNum time_scaling; Text " provided instead."] in
  RaisedCosineBasisLog._transform_samples min_max_rescale_samples self
    sample_pts
  = inl (NameError "min_max_rescale_samples")
  /\ RaisedCosineBasisLog.__call__ min_max_rescale_samples self sample_pts
     = inl (NameError "min_max_rescale_samples")
  /\ ((time_scaling <= 0)%Q ->
      RaisedCosineBasisLog.set_time_scaling self time_scaling = inl err
      /\ forall n' mode' width' decay ws bnds label' sup,
           RaisedCosineBasisLinear.__init__ Basis__init__
             n' mode' width' ws bnds label' = inr sup ->
           RaisedCosineBasisLog.__init__ Basis__init__
             n' mode' width' (Some time_scaling) decay ws bnds label'
           = inl err)
  /\ ((0 < time_scaling)%Q ->
      RaisedCosineBasisLog.set_time_scaling self time_scaling
      = inr {| RaisedCosineBasisLog.super := RaisedCosineBasisLog.super self;
               RaisedCosineBasisLog._time_scaling := time_scaling;
               RaisedCosineBasisLog.enforce_decay_to_zero :=
                 RaisedCosineBasisLog.enforce_decay_to_zero self |}
      /\ forall n' mode' width' decay ws bnds label' sup,
           RaisedCosineBasisLinear.__init__ Basis__init__
             n' mode' width' ws bnds label' = inr sup ->
           RaisedCosineBasisLog.__init__ Basis__init__
             n' mode' width' (Some time_scaling) decay ws bnds label'
           = inr {| RaisedCosineBasisLog.super :=
                      RaisedCosineBasisLinear.with_rescale_samples sup false;
                    RaisedCosineBasisLog._time_scaling := time_scaling;
                    RaisedCosineBasisLog.enforce_decay_to_zero := decay |}).
Proof.
  intros err.
  split; [reflexivity|]. split; [reflexivity|]. split.
  - intros Hle. apply Qle_bool_iff in Hle.
    split.
    + unfold RaisedCosineBasisLog.set_time_scaling,
        RaisedCosineBasisLog._check_time_scaling. rewrite Hle. reflexivity.
    + intros n' mode' width' decay ws bnds label' sup Hsup.
      unfold RaisedCosineBasisLog.__init__,
        RaisedCosineBasisLog._check_time_scaling.
      rewrite Hsup. cbn [bind]. rewrite Hle. reflexivity.
  - intros Hlt.
    assert (Hle : Qle_bool time_scaling 0 = false).
    { destruct (Qle_bool time_scaling 0) eqn:E; [|reflexivity].
      apply Qle_bool_iff in E. apply Qlt_not_le in Hlt. contradiction. }
    split.
    + unfold RaisedCosineBasisLog.set_time_scaling,
        RaisedCosineBasisLog._check_time_scaling. rewrite Hle. reflexivity.
    + intros n' mode' width' decay ws bnds label' sup Hsup.
      unfold RaisedCosineBasisLog.__init__,
        RaisedCosineBasisLog._check_time_scaling.
      rewrite Hsup. cbn [bind]. rewrite Hle. reflexivity.
Qed.

End LogEvaluation.

(* ===================================================================== *)
(** * Properties: the checks of [TransformerBasis] *)
(* ===================================================================== *)

Lemma check_initialized_None (h : heap) (b : loc) :
  Basis.getattr h b "_n_basis_input_" = inr VNone ->
  TransformerBasis._check_initialized b h
  = inl (RuntimeError TransformerBasis.not_initialized_message).
Proof.
  intros H. unfold TransformerBasis._check_initialized. rewrite H. reflexivity.
Qed.

Lemma check_initialized_tuple (h : heap) (b : loc) (widths : list nat) :
  Basis.getattr h b "_n_basis_input_" = inr (VTuple widths) ->
  TransformerBasis._check_initialized b h = inr tt.
Proof.
  intros H. unfold TransformerBasis._check_initialized. rewrite H. reflexivity.
Qed.

(** [_check_input] on a 2-D array: the column count against the sum of
    the remembered widths. *)
Lemma check_input_columns (self : TransformerBasis.t) (h : heap)
    (a : ndarray.t) (rows cols : nat) (widths : list nat) :
  ndarray.shape a = [rows; cols] ->
  Basis.getattr h (TransformerBasis._basis self) "_n_basis_input_"
  = inr (VTuple widths) ->
  cols <> foldr Nat.add 0%nat widths ->
  TransformerBasis._check_input self (VArray a) VNone h
  = inl (ValueError (TransformerBasis.mismatch_message
                       (foldr Nat.add 0%nat widths) cols)).
Proof.
  intros Hsh Hw Hne.
  unfold TransformerBasis._check_input, TransformerBasis.__getattr__.
  cbn. unfold ndarray.ndim. rewrite Hsh. cbn.
  unfold Basis.getattr in *. cbn in Hw |- *. rewrite Hw. cbn.
  destruct (Nat.eqb_spec cols (foldr Nat.add 0%nat widths)); [contradiction|].
  reflexivity.
Qed.

Section Adapter.
Variable Basis_setup_basis : loc -> list ndarray.t -> M unit.
Variable Basis__compute_features : loc -> list ndarray.t -> M ndarray.t.

(** [fit] turns down a 2-D array with the wrong number of columns, and
    the message carries the expected and the actual count. *)
Lemma fit_rejects_column_mismatch (self : TransformerBasis.t) (h : heap)
    (a : ndarray.t) (rows cols : nat) (widths : list nat) :
  ndarray.shape a = [rows; cols] ->
  Basis.getattr h (TransformerBasis._basis self) "_n_basis_input_"
  = inr (VTuple widths) ->
  cols <> foldr Nat.add 0%nat widths ->
  TransformerBasis.fit Basis_setup_basis self (VArray a) VNone h
  = (inl (ValueError (TransformerBasis.mismatch_message
                        (foldr Nat.add 0%nat widths) cols)), h).
Proof.
  intros Hsh Hw Hne. unfold TransformerBasis.fit, bindM, readM.
  rewrite (check_initialized_tuple _ _ _ Hw).
  rewrite (check_input_columns _ _ _ _ _ _ Hsh Hw Hne). reflexivity.
Qed.

(** C5, at an input where the code and the specification part.  The wrapped
    basis expects two columns and [X] has shape (4, 3).  [fit] fails
    with the value error that names 2 and 3.  [transform] has no such
    check: it cuts the first two columns out of [X] and hands them to
    [_compute_features]. *)
Theorem transform_skips_column_check :
  TransformerBasis.fit Basis_setup_basis wrapped
    (VArray (arange_array [4; 3]%nat)) VNone two_column_heap
  = (inl (ValueError (TransformerBasis.mismatch_message 2 3)), two_column_heap)
  /\ TransformerBasis.transform Basis__compute_features wrapped
       (VArray (arange_array [4; 3]%nat)) VNone two_column_heap
     = Basis__compute_features 0%nat
         [ndarray.mk [4; 2]%nat [0; 1; 3; 4; 6; 7; 9; 10]%Q]
         two_column_heap.
Proof.
  split.
  - apply (fit_rejects_column_mismatch wrapped two_column_heap
             (arange_array [4; 3]%nat) 4 3 [2%nat]).
    + reflexivity.
    + vm_compute. reflexivity.
    + cbn. lia.
  - unfold TransformerBasis.transform, bindM, readM.
    replace (TransformerBasis._check_initialized
               (TransformerBasis._basis wrapped) two_column_heap)
      with (inr tt : result unit) by (vm_compute; reflexivity).
    replace (TransformerBasis._unpack_inputs wrapped
               (VArray (arange_array [4; 3]%nat)) two_column_heap)
      with (inr [ndarray.mk [4; 2]%nat [0; 1; 3; 4; 6; 7; 9; 10]%Q]
            : result (list ndarray.t)) by (vm_compute; reflexivity).
    reflexivity.
Qed.

End Adapter.

Section AdapterErrors.
Variable Basis_setup_basis : loc -> list ndarray.t -> M unit.
Variable Basis__compute_features : loc -> list ndarray.t -> M ndarray.t.

(** C6.  While the wrapped basis has no input shape
    ([_n_basis_input_ is None]), [fit], [transform] and [fit_transform]
    raise the runtime error whose message tells the caller to call
    [set_input_shape]; neither [setup_basis] nor [_compute_features] is
    reached, whatever they are, and the heap is as before. *)
Theorem uninitialized_basis_raises (self : TransformerBasis.t) (h : heap)
    (X y : value) :
  Basis.getattr h (TransformerBasis._basis self) "_n_basis_input_"
  = inr VNone ->
  let err := RuntimeError TransformerBasis.not_initialized_message in
  TransformerBasis.fit Basis_setup_basis self X y h = (inl err, h)
  /\ TransformerBasis.transform Basis__compute_features self X y h
     = (inl err, h)
  /\ TransformerBasis.fit_transform Basis_setup_basis Basis__compute_features
       self X y h = (inl err, h)
  /\ mentions "set_input_shape" (exn_message err) = true.
Proof.
  intros Hnone err.
  assert (Hfit : TransformerBasis.fit Basis_setup_basis self X y h
                 = (inl err, h)).
  { unfold TransformerBasis.fit, bindM, readM.
    rewrite (check_initialized_None _ _ Hnone). reflexivity. }
  split; [exact Hfit|]. split; [|split].
  - unfold TransformerBasis.transform, bindM, readM.
    rewrite (check_initialized_None _ _ Hnone). reflexivity.
  - unfold TransformerBasis.fit_transform, bindM. rewrite Hfit. reflexivity.
  - vm_compute. reflexivity.
Qed.

(** C10, what the code does.  When [X] has the expected columns and [y]
    has another number of samples, formatting the message reads
    [X.shpae], which no array has: [fit] raises an attribute error, not
    the value error about the number of samples. *)
Theorem fit_sample_mismatch_raises_AttributeError
    (self : TransformerBasis.t) (h : heap) (a ya : ndarray.t)
    (rows cols ylen : nat) (yrest widths : list nat) :
  ndarray.shape a = [rows; cols] ->
  Basis.getattr h (TransformerBasis._basis self) "_n_basis_input_"
  = inr (VTuple widths) ->
  cols = foldr Nat.add 0%nat widths ->
  ndarray.shape ya = ylen :: yrest ->
  ylen <> rows ->
  TransformerBasis.fit Basis_setup_basis self (VArray a) (VArray ya) h
  = (inl (AttributeError "shpae"), h)
  /\ is_ValueError (AttributeError "shpae") = false.
Proof.
  intros Hsh Hw Hcols Hysh Hne. split; [|reflexivity].
  unfold TransformerBasis.fit, bindM, readM.
  rewrite (check_initialized_tuple _ _ _ Hw).
  unfold TransformerBasis._check_input, TransformerBasis.__getattr__.
  cbn. unfold ndarray.ndim. rewrite Hsh, Hysh. cbn.
  unfold Basis.getattr in *. cbn in Hw |- *. rewrite Hw. cbn.
  rewrite <- Hcols, Nat.eqb_refl. cbn.
  destruct (Nat.eqb_spec ylen rows); [contradiction|].
  reflexivity.
Qed.

End AdapterErrors.

(** [uninitialized_basis_raises] on a basis fresh from its constructor. *)
Lemma uninitialized_basis_raises_witness :
  Basis.getattr fresh_basis_heap (TransformerBasis._basis wrapped)
    "_n_basis_input_" = inr VNone
  /\ TransformerBasis.fit_transform setup_nothing first_input wrapped
       (VArray (arange_array [4; 2]%nat)) VNone fresh_basis_heap
     = (inl (RuntimeError TransformerBasis.not_initialized_message),
        fresh_basis_heap).
Proof.
  split; [vm_compute; reflexivity|].
  apply (uninitialized_basis_raises setup_nothing first_input wrapped
           fresh_basis_heap (VArray (arange_array [4; 2]%nat)) VNone).
  vm_compute. reflexivity.
Defined.

(** [fit_sample_mismatch_raises_AttributeError] with [X] of shape (4, 2)
    and [y] of shape (3,). *)
Lemma fit_sample_mismatch_witness :
  TransformerBasis.fit setup_nothing wrapped (VArray (arange_array [4; 2]%nat))
    (VArray (arange_array [3%nat])) two_column_heap
  = (inl (AttributeError "shpae"), two_column_heap).
Proof.
  apply (fit_sample_mismatch_raises_AttributeError setup_nothing wrapped
           two_column_heap (arange_array [4; 2]%nat) (arange_array [3%nat])
           4 2 3 [] [2%nat]).
  - reflexivity.
  - vm_compute. reflexivity.
  - reflexivity.
  - reflexivity.
  - lia.
Defined.

Lemma five_bumps_valid : RaisedCosineBasisLinear.valid five_bumps.
Proof. repeat split; vm_compute; reflexivity. Defined.

Lemma five_log_bumps_valid : RaisedCosineBasisLog.valid five_log_bumps.
Proof. repeat split; vm_compute; reflexivity. Defined.

(** [linear_call_raises_NameError] for the basis that
    [RaisedCosineBasisLinear(5)] constructs, on the samples 0, 1/2, 1. *)
Lemma linear_call_raises_NameError_witness :
  RaisedCosineBasisLinear.__init__ store_Basis_attrs
    5 "eval" 2 None None "RaisedCosineBasisLinear" = inr five_bumps
  /\ RaisedCosineBasisLinear.valid five_bumps
  /\ RaisedCosineBasisLinear._rescale_samples five_bumps = true
  /\ RaisedCosineBasisLinear.__call__ already_rescaled five_bumps
       [0; 1 / 2; 1]%R
     = inl (NameError "min_max_rescale_samples").
Proof.
  split; [vm_compute; reflexivity|].
  split; [exact five_bumps_valid|].
  split; [reflexivity|].
  apply (linear_call_raises_NameError already_rescaled five_bumps
           [0; 1 / 2; 1]%R).
  reflexivity.
Defined.

(** [log_compute_peaks] for five log-spaced bumps. *)
Lemma log_compute_peaks_witness :
  RaisedCosineBasisLog.valid five_log_bumps
  /\ exists peaks,
       RaisedCosineBasisLog._compute_peaks five_log_bumps = inr peaks
       /\ peaks !! 4%nat = Some (1 - Q2R 2 / (IZR 5 + Q2R 2 - 1))%R.
Proof.
  split; [exact five_log_bumps_valid|].
  destruct (log_compute_peaks five_log_bumps five_log_bumps_valid)
    as (peaks & H1 & _ & _ & H4 & _).
  exists peaks. split; [exact H1|exact H4].
Defined.

(** [log_call_NameError_and_time_scaling] for five log-spaced bumps on
    the samples 0, 1/2, 1, and for the assignment [time_scaling = 0]. *)
Lemma log_call_NameError_and_time_scaling_witness :
  (0 <= 0)%Q
  /\ RaisedCosineBasisLog.__call__ already_rescaled five_log_bumps
       [0; 1 / 2; 1]%R
     = inl (NameError "min_max_rescale_samples")
  /\ RaisedCosineBasisLog.set_time_scaling five_log_bumps 0
     = inl (ValueError [Text "Only strictly positive time_scaling are allowed, ";
                        FNum 0; Text " provided instead."]).
Proof.
  assert (Hle : (0 <= 0)%Q) by discriminate.
  split; [exact Hle|].
  destruct (log_call_NameError_and_time_scaling store_Basis_attrs
              already_rescaled five_log_bumps [0; 1 / 2; 1]%R 0%Q)
    as (_ & Hcall & Hbad & _).
  split; [exact Hcall|].
  apply Hbad. exact Hle.
Defined.

(* ===================================================================== *)
(** * Properties: the heap, deep copies and composition *)
(* ===================================================================== *)

Lemma has_tree_app (h ext : heap) (b : loc) (t : btree) :
  has_tree h b t -> has_tree (h ++ ext) b t.
Proof.
  induction 1 as [b o Hb Ho | b o op l r tl tr Hb Ho _ IHl _ IHr].
  - apply has_leaf; [apply lookup_app_l_Some, Hb | exact Ho].
  - eapply has_node; eauto using lookup_app_l_Some.
Qed.

Lemma has_tree_inj (h : heap) (b : loc) (t1 t2 : btree) :
  has_tree h b t1 -> has_tree h b t2 -> t1 = t2.
Proof.
  intros H1. revert t2.
  induction H1 as [b o Hb Ho | b o op l r tl tr Hb Ho _ IHl _ IHr];
    intros t2 H2; inversion H2; subst; simplify_eq; try congruence.
  f_equal; [apply IHl | apply IHr]; assumption.
Qed.

Lemma has_tree_lt (h : heap) (b : loc) (t : btree) :
  has_tree h b t -> (b < length h)%nat.
Proof.
  intros H. destruct H; eapply lookup_lt_Some; eassumption.
Qed.

Lemma lookup_snoc_new (h : heap) (o : basis_obj) :
  (h ++ [o]) !! length h = Some o.
Proof. apply list_lookup_middle. reflexivity. Qed.

Lemma lookup_snoc_inv (h : heap) (o o' : basis_obj) (b : loc) :
  (h ++ [o]) !! b = Some o' ->
  ((b < length h)%nat /\ h !! b = Some o') \/ (b = length h /\ o' = o).
Proof.
  intros H. destruct (decide (b < length h)%nat) as [Hlt|Hge].
  - left. split; [exact Hlt|]. rewrite lookup_app_l in H; assumption.
  - right. pose proof (lookup_lt_Some _ _ _ H) as Hb.
    rewrite length_app in Hb. cbn in Hb.
    assert (b = length h) by lia. subst b.
    rewrite lookup_snoc_new in H. split; congruence.
Qed.

Lemma heap_wf_snoc (h : heap) (o : basis_obj) :
  heap_wf h ->
  (forall op l r, operands o = Some (op, l, r) ->
                  (l < length h)%nat /\ (r < length h)%nat) ->
  heap_wf (h ++ [o]).
Proof.
  intros Hwf Ho b o' op l r Hb Hops.
  destruct (lookup_snoc_inv _ _ _ _ Hb) as [[_ Hold] | [-> ->]].
  - eapply Hwf; eassumption.
  - eapply Ho; eassumption.
Qed.

Lemma closed_above_snoc (n0 : nat) (h : heap) (o : basis_obj) :
  closed_above n0 h ->
  (forall op l r, operands o = Some (op, l, r) -> (n0 <= l)%nat /\ (n0 <= r)%nat) ->
  closed_above n0 (h ++ [o]).
Proof.
  intros Hc Ho b o' op l r Hn Hb Hops.
  destruct (lookup_snoc_inv _ _ _ _ Hb) as [[_ Hold] | [-> ->]].
  - eapply Hc; eassumption.
  - eapply Ho; eassumption.
Qed.

Lemma closed_above_fresh (h : heap) : closed_above (length h) h.
Proof.
  intros b o op l r Hn Hb _. apply lookup_lt_Some in Hb. lia.
Qed.

Lemma copying_start (h : heap) : heap_wf h -> copying (length h) ∅ h.
Proof.
  intros Hwf. split; [lia|]. split; [exact Hwf|].
  split; [apply closed_above_fresh|].
  intros k v Hk. rewrite lookup_empty in Hk. discriminate.
Qed.

(** Objects reachable from a copy are copies. *)
Lemma reachable_closed_above (n0 : nat) (h : heap) (b c : loc) :
  closed_above n0 h -> reachable h b c -> (n0 <= b)%nat -> (n0 <= c)%nat.
Proof.
  intros Hc. induction 1 as [b | b o op l r c Hb Ho _ IH | b o op l r c Hb Ho _ IH];
    intros Hn; [exact Hn | |];
    apply IH; destruct (Hc _ _ _ _ _ Hn Hb Ho); assumption.
Qed.

Lemma copying_memo_insert (n0 : nat) (memo : gmap loc loc) (h : heap)
    (o : basis_obj) (x : loc) (t : btree) :
  copying n0 memo h ->
  heap_wf (h ++ [o]) ->
  closed_above n0 (h ++ [o]) ->
  has_tree (h ++ [o]) x t ->
  has_tree (h ++ [o]) (length h) t ->
  copying n0 (<[x := length h]> memo) (h ++ [o]).
Proof.
  intros (Hn & _ & _ & Hm) Hwf Hc Hx Hy.
  split; [rewrite length_app; lia|]. split; [exact Hwf|]. split; [exact Hc|].
  intros k v Hk. rewrite length_app. cbn.
  destruct (decide (x = k)) as [->|Hne].
  - rewrite lookup_insert_eq in Hk. injection Hk as <-.
    split; [lia|]. exists t. split; assumption.
  - rewrite lookup_insert_ne in Hk by exact Hne.
    destruct (Hm _ _ Hk) as [Hv (t' & Hk' & Hv')].
    split; [lia|]. exists t'. split; apply has_tree_app; assumption.
Qed.

(** One run of the copy keeps the invariant, extends the heap and gives
    the copy the tree of the original. *)
Lemma deepcopy_aux_copying (fuel : nat) :
  forall (x : loc) (memo : gmap loc loc) (h : heap)
         (y : loc) (memo' : gmap loc loc) (h' : heap) (n0 : nat),
    copy.deepcopy_aux fuel x memo h = Some (y, memo', h') ->
    copying n0 memo h ->
    (exists ext, h' = h ++ ext)
    /\ copying n0 memo' h'
    /\ (n0 <= y < length h')%nat
    /\ exists t, has_tree h' x t /\ has_tree h' y t.
Proof.
  induction fuel as [|fuel IH]; intros x memo h y memo' h' n0 Hrun Hinv;
    [discriminate|].
  cbn [copy.deepcopy_aux] in Hrun.
  destruct (memo !! x) as [v|] eqn:Hmemo.
  { injection Hrun as <- <- <-.
    split; [exists []; rewrite app_nil_r; reflexivity|].
    split; [exact Hinv|].
    destruct Hinv as (_ & _ & _ & Hm).
    destruct (Hm _ _ Hmemo) as [Hv Ht]. split; assumption. }
  destruct (h !! x) as [o|] eqn:Hx; [|discriminate].
  destruct (operands o) as [[[op l] r]|] eqn:Hops.
  - destruct (copy.deepcopy_aux fuel l memo h) as [[[l' memo1] h1]|] eqn:Hl;
      [|discriminate].
    destruct (copy.deepcopy_aux fuel r memo1 h1) as [[[r' memo2] h2]|] eqn:Hr;
      [|discriminate].
    injection Hrun as <- <- <-.
    destruct (IH _ _ _ _ _ _ n0 Hl Hinv)
      as ([ext1 ->] & Hinv1 & Hl' & tl & Htl & Htl').
    destruct (IH _ _ _ _ _ _ n0 Hr Hinv1)
      as ([ext2 ->] & Hinv2 & Hr' & tr & Htr & Htr').
    set (h2 := (h ++ ext1) ++ ext2) in *.
    set (new := {| attrs := attrs o; operands := Some (op, l', r') |}).
    assert (Hlen1 : (length (h ++ ext1) <= length h2)%nat)
      by (unfold h2; rewrite (length_app (h ++ ext1)); lia).
    assert (Hwf : heap_wf (h2 ++ [new])).
    { apply heap_wf_snoc; [apply Hinv2|].
      intros ? ? ? [= <- <- <-]. lia. }
    assert (Hc : closed_above n0 (h2 ++ [new])).
    { apply closed_above_snoc; [apply Hinv2|].
      intros ? ? ? [= <- <- <-]. lia. }
    assert (Hxt : has_tree (h2 ++ [new]) x (TNode op (attrs o) tl tr)).
    { eapply has_node.
      - unfold h2. do 3 apply lookup_app_l_Some. exact Hx.
      - exact Hops.
      - apply has_tree_app. unfold h2. apply has_tree_app. exact Htl.
      - apply has_tree_app. exact Htr. }
    assert (Hyt : has_tree (h2 ++ [new]) (length h2) (TNode op (attrs o) tl tr)).
    { change (attrs o) with (attrs new). eapply has_node.
      - apply lookup_snoc_new.
      - reflexivity.
      - apply has_tree_app. unfold h2. apply has_tree_app. exact Htl'.
      - apply has_tree_app. exact Htr'. }
    split.
    { exists (ext1 ++ ext2 ++ [new]). unfold h2. rewrite !app_assoc. reflexivity. }
    split; [eapply copying_memo_insert; eassumption|].
    split; [rewrite length_app; cbn; lia|].
    eexists. split; eassumption.
  - injection Hrun as <- <- <-.
    assert (Hwf : heap_wf (h ++ [o])).
    { apply heap_wf_snoc; [apply Hinv|]. intros ? ? ? Ho. congruence. }
    assert (Hc : closed_above n0 (h ++ [o])).
    { apply closed_above_snoc; [apply Hinv|]. intros ? ? ? Ho. congruence. }
    assert (Hxt : has_tree (h ++ [o]) x (TLeaf (attrs o))).
    { apply has_leaf; [apply lookup_app_l_Some, Hx | exact Hops]. }
    assert (Hyt : has_tree (h ++ [o]) (length h) (TLeaf (attrs o))).
    { apply has_leaf; [apply lookup_snoc_new | exact Hops]. }
    split; [exists [o]; reflexivity|].
    split; [eapply copying_memo_insert; eassumption|].
    split; [rewrite length_app; cbn; destruct Hinv; lia|].
    eexists. split; eassumption.
Qed.

(** With fuel above the address, the copy of an object of a well-formed
    heap is found. *)
Lemma deepcopy_aux_succeeds (fuel : nat) :
  forall (x : loc) (memo : gmap loc loc) (h : heap) (n0 : nat),
    copying n0 memo h -> (x < length h)%nat -> (x < fuel)%nat ->
    exists y memo' h', copy.deepcopy_aux fuel x memo h = Some (y, memo', h').
Proof.
  induction fuel as [|fuel IH]; intros x memo h n0 Hinv Hx Hfuel; [lia|].
  cbn [copy.deepcopy_aux]. destruct (memo !! x) as [v|]; [eauto|].
  destruct (lookup_lt_is_Some_2 h x Hx) as [o Ho]. rewrite Ho.
  destruct (operands o) as [[[op l] r]|] eqn:Hops; [|eauto].
  pose proof (proj1 (proj2 Hinv)) as Hwf.
  destruct (Hwf _ _ _ _ _ Ho Hops) as [Hl Hr].
  destruct (IH l memo h n0) as (l' & memo1 & h1 & Hrun1);
    [exact Hinv | lia | lia |].
  rewrite Hrun1.
  destruct (deepcopy_aux_copying _ _ _ _ _ _ _ n0 Hrun1)
    as ([ext1 ->] & Hinv1 & _); [exact Hinv|].
  destruct (IH r memo1 (h ++ ext1) n0) as (r' & memo2 & h2 & Hrun2);
    [exact Hinv1 | rewrite length_app; lia | lia |].
  rewrite Hrun2. eauto.
Qed.

(** [copy.deepcopy] on a basis of a well-formed heap: the heap grows, what
    was there stays, and the copy is made of new objects only and has the
    tree of the original. *)
Lemma deepcopy_spec (x : loc) (h : heap) :
  heap_wf h -> (x < length h)%nat ->
  exists y ext,
    copy.deepcopy x h = (inr y, h ++ ext)
    /\ heap_wf (h ++ ext)
    /\ closed_above (length h) (h ++ ext)
    /\ (length h <= y < length (h ++ ext))%nat
    /\ forall t, has_tree h x t -> has_tree (h ++ ext) y t.
Proof.
  intros Hwf Hx. unfold copy.deepcopy.
  destruct (deepcopy_aux_succeeds (length h) x ∅ h (length h))
    as (y & memo' & h' & Hrun); [apply copying_start, Hwf | exact Hx | exact Hx |].
  rewrite Hrun.
  destruct (deepcopy_aux_copying _ _ _ _ _ _ _ (length h) Hrun)
    as ([ext ->] & Hinv & Hy & t & Hxt & Hyt); [apply copying_start, Hwf|].
  exists y, ext. split; [reflexivity|].
  destruct Hinv as (_ & Hwf' & Hc & _).
  repeat (split; [assumption|]).
  intros t' Ht'. apply (has_tree_app _ ext) in Ht'.
  rewrite (has_tree_inj _ _ _ _ Ht' Hxt). exact Hyt.
Qed.

Lemma attrs_at_root (h : heap) (b : loc) (t : btree) :
  has_tree h b t -> Basis.attrs_at h b = root_attrs t.
Proof.
  intros H. unfold Basis.attrs_at. destruct H as [b o Hb _ | b o ? ? ? ? ? Hb _ _ _];
    rewrite Hb; reflexivity.
Qed.

(** The composite that [b1 + b2] or [b1 * b2] allocates. *)
Lemma compose_spec (op : binop) (b1 b2 : loc) (h : heap) (t1 t2 : btree) :
  heap_wf h -> has_tree h b1 t1 -> has_tree h b2 t2 ->
  exists ext,
    Basis.compose op b1 b2 h = (inr (length h), h ++ ext)
    /\ heap_wf (h ++ ext)
    /\ has_tree (h ++ ext) (length h)
         (TNode op (Basis.composite_attrs op (root_attrs t1) (root_attrs t2))
            t1 t2).
Proof.
  intros Hwf H1 H2. unfold Basis.compose.
  rewrite (attrs_at_root _ _ _ H1), (attrs_at_root _ _ _ H2).
  eexists. split; [reflexivity|]. split.
  - apply heap_wf_snoc; [exact Hwf|].
    intros ? ? ? [= <- <- <-].
    split; eapply has_tree_lt; eassumption.
  - match goal with
    | |- has_tree (_ ++ [?o]) _ (TNode _ ?a _ _) => change a with (attrs o)
    end.
    eapply has_node; [apply lookup_snoc_new | reflexivity | | ];
      apply has_tree_app; assumption.
Qed.

Lemma mul_repeat_spec (n : nat) :
  forall (self result : loc) (h : heap) (t tacc : btree),
    heap_wf h -> has_tree h self t -> has_tree h result tacc ->
    exists b ext,
      Basis.mul_repeat n self result h = (inr b, h ++ ext)
      /\ heap_wf (h ++ ext)
      /\ has_tree (h ++ ext) b (tree_mul_repeat n t tacc).
Proof.
  induction n as [|n IH]; intros self result h t tacc Hwf Hself Hres.
  - exists result, []. rewrite app_nil_r. cbn. auto.
  - cbn [Basis.mul_repeat tree_mul_repeat]. unfold bindM, Basis.__mul__.
    destruct (compose_spec Mul result self h tacc t Hwf Hres Hself)
      as (ext1 & -> & Hwf1 & Ht1).
    destruct (IH self (length h) (h ++ ext1) t (tree_mul tacc t) Hwf1
                (has_tree_app _ _ _ _ Hself) Ht1) as (b & ext2 & Hrun & Hwf2 & Ht2).
    exists b, (ext1 ++ ext2). rewrite app_assoc. auto.
Qed.

(** [TransformerBasis(basis)]: the new adapter wraps a copy. *)
Lemma init_spec (basis : loc) (h : heap) :
  heap_wf h -> (basis < length h)%nat ->
  exists new ext,
    TransformerBasis.__init__ basis h = (inr new, h ++ ext)
    /\ heap_wf (h ++ ext)
    /\ (forall c, reachable (h ++ ext) (TransformerBasis._basis new) c ->
                  (length h <= c)%nat)
    /\ (forall t, has_tree h basis t ->
                  has_tree (h ++ ext) (TransformerBasis._basis new) t).
Proof.
  intros Hwf Hb. unfold TransformerBasis.__init__, bindM.
  destruct (deepcopy_spec basis h Hwf Hb) as (y & ext & -> & Hwf' & Hc & Hy & Ht).
  exists {| TransformerBasis._basis := y |}, ext.
  split; [reflexivity|]. split; [exact Hwf'|]. split; [|exact Ht].
  intros c Hreach. cbn in Hreach.
  eapply reachable_closed_above; [exact Hc | exact Hreach | lia].
Qed.

(** [TransformerBasis(b1 + b2)] and [TransformerBasis(b1 * b2)]. *)
Lemma wrap_compose_spec (op : binop) (b1 b2 : loc) (h : heap) (t1 t2 : btree) :
  heap_wf h -> has_tree h b1 t1 -> has_tree h b2 t2 ->
  exists new ext,
    bindM (Basis.compose op b1 b2) TransformerBasis.__init__ h
    = (inr new, h ++ ext)
    /\ heap_wf (h ++ ext)
    /\ (forall c, reachable (h ++ ext) (TransformerBasis._basis new) c ->
                  (length h <= c)%nat)
    /\ has_tree (h ++ ext) (TransformerBasis._basis new)
         (TNode op (Basis.composite_attrs op (root_attrs t1) (root_attrs t2))
            t1 t2).
Proof.
  intros Hwf H1 H2. unfold bindM.
  destruct (compose_spec op b1 b2 h t1 t2 Hwf H1 H2) as (ext1 & -> & Hwf1 & Ht).
  destruct (init_spec (length h) (h ++ ext1) Hwf1 (has_tree_lt _ _ _ Ht))
    as (new & ext2 & Hrun & Hwf2 & Hfresh & Htree).
  exists new, (ext1 ++ ext2). rewrite app_assoc.
  split; [exact Hrun|]. split; [exact Hwf2|]. split; [|apply Htree, Ht].
  intros c Hc. apply Hfresh in Hc. rewrite length_app in Hc. lia.
Qed.

(** [TransformerBasis(b ** k)] for [k >= 1]. *)
Lemma wrap_pow_spec (b : loc) (k : Z) (h : heap) (t : btree) :
  heap_wf h -> has_tree h b t -> (1 <= k)%Z ->
  exists new ext,
    bindM (Basis.__pow__ b (VInt k)) TransformerBasis.__init__ h
    = (inr new, h ++ ext)
    /\ heap_wf (h ++ ext)
    /\ (forall c, reachable (h ++ ext) (TransformerBasis._basis new) c ->
                  (length h <= c)%nat)
    /\ has_tree (h ++ ext) (TransformerBasis._basis new)
         (tree_mul_repeat (Z.to_nat (k - 1)) t t).
Proof.
  intros Hwf Ht Hk. unfold bindM, Basis.__pow__.
  replace (k <? 1)%Z with false by (symmetry; apply Z.ltb_ge; lia).
  destruct (mul_repeat_spec (Z.to_nat (k - 1)) b b h t t Hwf Ht Ht)
    as (c & ext1 & -> & Hwf1 & Hc).
  destruct (init_spec c (h ++ ext1) Hwf1 (has_tree_lt _ _ _ Hc))
    as (new & ext2 & Hrun & Hwf2 & Hfresh & Htree).
  exists new, (ext1 ++ ext2). rewrite app_assoc.
  split; [exact Hrun|]. split; [exact Hwf2|]. split; [|apply Htree, Hc].
  intros d Hd. apply Hfresh in Hd. rewrite length_app in Hd. lia.
Qed.

(** [__setattr__] changes at most the wrapped basis object. *)
Lemma setattr_frame (self : TransformerBasis.t) (name : string) (v : value)
    (h h' : heap) (r : result TransformerBasis.t) (b : loc) :
  TransformerBasis.__setattr__ self name v h = (r, h') ->
  b <> TransformerBasis._basis self ->
  h' !! b = h !! b.
Proof.
  intros Hrun Hne. unfold TransformerBasis.__setattr__ in Hrun.
  destruct (String.eqb name "_basis").
  { destruct v; cbv [retM raiseM] in Hrun; congruence. }
  destruct (String.eqb name "basis").
  { destruct v; cbv [retM raiseM bindM readM] in Hrun; try congruence.
    destruct (TransformerBasis._check_initialized l h); congruence. }
  cbv [bindM readM ret] in Hrun.
  destruct (Basis.hasattr h (TransformerBasis._basis self) name).
  - unfold Basis.setattr in Hrun.
    destruct (h !! TransformerBasis._basis self) as [o|].
    + cbv [retM] in Hrun. injection Hrun as _ <-.
      apply list_lookup_insert_ne. congruence.
    + congruence.
  - cbv [raiseM] in Hrun. congruence.
Qed.

Lemma has_tree_agree (h h2 : heap) (b : loc) (t : btree) :
  has_tree h b t ->
  (forall c, (c < length h)%nat -> h2 !! c = h !! c) ->
  has_tree h2 b t.
Proof.
  intros H Hagree.
  induction H as [b o Hb Ho | b o op l r tl tr Hb Ho _ IHl _ IHr].
  - apply has_leaf; [|exact Ho].
    rewrite Hagree; [exact Hb | eapply lookup_lt_Some, Hb].
  - eapply has_node; [|exact Ho|exact IHl|exact IHr].
    rewrite Hagree; [exact Hb | eapply lookup_lt_Some, Hb].
Qed.

(** C8.  [+], [*] and [**] on adapters, and the constructor itself, leave
    every object that was on the heap as it was (so both operands keep
    their configuration), and return an adapter around objects that did
    not exist before: the wrapped basis is a deep copy.  Assigning an
    attribute through the new adapter therefore leaves the operands
    unchanged as well. *)
Theorem composition_leaves_operands_alone
    (self other : TransformerBasis.t) (h : heap) (t1 t2 : btree) (k : Z)
    (m : M TransformerBasis.t) :
  heap_wf h ->
  has_tree h (TransformerBasis._basis self) t1 ->
  has_tree h (TransformerBasis._basis other) t2 ->
  (1 <= k)%Z ->
  m = TransformerBasis.__add__ self other
  \/ m = TransformerBasis.__mul__ self other
  \/ m = TransformerBasis.__pow__ self (VInt k)
  \/ m = TransformerBasis.__init__ (TransformerBasis._basis self) ->
  exists new h',
    m h = (inr new, h')
    /\ (forall b, (b < length h)%nat -> h' !! b = h !! b)
    /\ has_tree h' (TransformerBasis._basis self) t1
    /\ has_tree h' (TransformerBasis._basis other) t2
    /\ (forall c, reachable h' (TransformerBasis._basis new) c ->
                  (length h <= c)%nat)
    /\ (forall name v r h'',
          TransformerBasis.__setattr__ new name v h' = (r, h'') ->
          (forall b, (b < length h)%nat -> h'' !! b = h !! b)
          /\ has_tree h'' (TransformerBasis._basis self) t1
          /\ has_tree h'' (TransformerBasis._basis other) t2).
Proof.
  intros Hwf H1 H2 Hk Hm.
  assert (Hrun : exists new ext,
             m h = (inr new, h ++ ext)
             /\ forall c, reachable (h ++ ext) (TransformerBasis._basis new) c ->
                          (length h <= c)%nat).
  { destruct Hm as [-> | [-> | [-> | ->]]].
    - destruct (wrap_compose_spec Add _ _ h t1 t2 Hwf H1 H2)
        as (new & ext & Hrun & _ & Hfresh & _). eauto.
    - destruct (wrap_compose_spec Mul _ _ h t1 t2 Hwf H1 H2)
        as (new & ext & Hrun & _ & Hfresh & _). eauto.
    - destruct (wrap_pow_spec _ k h t1 Hwf H1 Hk)
        as (new & ext & Hrun & _ & Hfresh & _). eauto.
    - destruct (init_spec _ h Hwf (has_tree_lt _ _ _ H1))
        as (new & ext & Hrun & _ & Hfresh & _). eauto. }
  destruct Hrun as (new & ext & Hrun & Hfresh).
  exists new, (h ++ ext).
  assert (Hold : forall b, (b < length h)%nat -> (h ++ ext) !! b = h !! b)
    by (intros b Hb; apply lookup_app_l, Hb).
  split; [exact Hrun|]. split; [exact Hold|].
  split; [apply has_tree_app, H1|]. split; [apply has_tree_app, H2|].
  split; [exact Hfresh|].
  intros name v r h'' Hset.
  assert (Hold' : forall b, (b < length h)%nat -> h'' !! b = h !! b).
  { intros b Hb. rewrite <- (Hold b Hb).
    eapply setattr_frame; [exact Hset|].
    pose proof (Hfresh _ (reach_self _ _)). lia. }
  split; [exact Hold'|].
  split; eapply has_tree_agree; eassumption.
Qed.

(** C7.  For an integer [k >= 1], [b ** k] is an adapter whose basis has
    the tree of [b * b * ... * b] ([k] factors), the same tree that [k - 1]
    applications of [__mul__] to adapters give; for [k = 1] it is the tree
    of [b] itself, so that [b ** 1] computes what [b] computes.  An
    exponent that is not an integer is a type error, an integer below 1 a
    value error, and the heap is then as before. *)
Theorem pow_is_repeated_mul (self : TransformerBasis.t) (h : heap) (t : btree)
    (exponent : value) :
  heap_wf h ->
  has_tree h (TransformerBasis._basis self) t ->
  match exponent with
  | VInt k =>
      if (k <? 1)%Z
      then exists msg,
          TransformerBasis.__pow__ self exponent h = (inl (ValueError msg), h)
      else exists new h' chained h'',
          TransformerBasis.__pow__ self exponent h = (inr new, h')
          /\ has_tree h' (TransformerBasis._basis new)
               (tree_mul_repeat (Z.to_nat (k - 1)) t t)
          /\ TransformerBasis.mul_chain (Z.to_nat (k - 1)) self self h
             = (inr chained, h'')
          /\ has_tree h'' (TransformerBasis._basis chained)
               (tree_mul_repeat (Z.to_nat (k - 1)) t t)
          /\ (k = 1%Z -> has_tree h' (TransformerBasis._basis new) t)
  | _ => exists msg,
      TransformerBasis.__pow__ self exponent h = (inl (TypeError msg), h)
  end.
Proof.
  intros Hwf Ht.
  destruct exponent as [|k| | | | | |];
    try (eexists; reflexivity).
  destruct (Z.ltb_spec k 1) as [Hlt|Hge].
  { unfold TransformerBasis.__pow__, bindM, Basis.__pow__.
    replace (k <? 1)%Z with true by (symmetry; apply Z.ltb_lt; lia).
    eexists. reflexivity. }
  destruct (wrap_pow_spec _ k h t Hwf Ht Hge) as (new & ext & Hrun & _ & _ & Hnew).
  assert (Hchain : forall n acc h0 tacc,
             heap_wf h0 ->
             has_tree h0 (TransformerBasis._basis self) t ->
             has_tree h0 (TransformerBasis._basis acc) tacc ->
             exists r ext0,
               TransformerBasis.mul_chain n self acc h0 = (inr r, h0 ++ ext0)
               /\ has_tree (h0 ++ ext0) (TransformerBasis._basis r)
                    (tree_mul_repeat n t tacc)).
  { induction n as [|n IH]; intros acc h0 tacc Hwf0 Hself Hacc.
    - exists acc, []. rewrite app_nil_r. cbn. auto.
    - cbn [TransformerBasis.mul_chain tree_mul_repeat].
      destruct (wrap_compose_spec Mul _ _ h0 tacc t Hwf0 Hacc Hself)
        as (acc' & ext1 & Hrun1 & Hwf1 & _ & Hacc').
      change (bindM (Basis.compose Mul (TransformerBasis._basis acc)
                       (TransformerBasis._basis self))
                TransformerBasis.__init__ h0)
        with (TransformerBasis.__mul__ acc self h0) in Hrun1.
      unfold bindM at 1. rewrite Hrun1.
      destruct (IH acc' (h0 ++ ext1) (tree_mul tacc t) Hwf1
                  (has_tree_app _ _ _ _ Hself) Hacc')
        as (r & ext2 & Hr & Htr).
      exists r, (ext1 ++ ext2). rewrite app_assoc. auto. }
  destruct (Hchain (Z.to_nat (k - 1)) self h t Hwf Ht Ht)
    as (chained & ext' & Hrun' & Hchained).
  exists new, (h ++ ext), chained, (h ++ ext').
  split; [exact Hrun|]. split; [exact Hnew|].
  split; [exact Hrun'|]. split; [exact Hchained|].
  intros ->. exact Hnew.
Qed.

Lemma two_leaf_heap_wf : heap_wf two_leaf_heap.
Proof.
  intros b o op l r Hb Ho.
  destruct b as [|[|b]]; cbn in Hb; simplify_eq; discriminate.
Defined.

Lemma first_leaf_tree :
  has_tree two_leaf_heap 0%nat (TLeaf (attrs (leaf 5 (VTuple [1%nat]) [1%nat]))).
Proof. apply has_leaf; reflexivity. Defined.

Lemma second_leaf_tree :
  has_tree two_leaf_heap 1%nat (TLeaf (attrs (leaf 4 (VTuple [1%nat]) [1%nat]))).
Proof. apply has_leaf; reflexivity. Defined.

(** [composition_leaves_operands_alone] for the sum of two leaves. *)
Lemma composition_leaves_operands_alone_witness :
  heap_wf two_leaf_heap
  /\ exists new h',
       TransformerBasis.__add__ first_leaf second_leaf two_leaf_heap
       = (inr new, h')
       /\ h' !! 0%nat = two_leaf_heap !! 0%nat
       /\ h' !! 1%nat = two_leaf_heap !! 1%nat
       /\ (2 <= TransformerBasis._basis new)%nat.
Proof.
  split; [exact two_leaf_heap_wf|].
  destruct (composition_leaves_operands_alone first_leaf second_leaf
              two_leaf_heap _ _ 1 (TransformerBasis.__add__ first_leaf second_leaf)
              two_leaf_heap_wf first_leaf_tree second_leaf_tree ltac:(lia)
              (or_introl eq_refl))
    as (new & h' & Hrun & Hold & _ & _ & Hfresh & _).
  exists new, h'. split; [exact Hrun|].
  split; [apply Hold; cbn; lia|]. split; [apply Hold; cbn; lia|].
  apply (Hfresh _ (reach_self _ _)).
Defined.

(** [pow_is_repeated_mul] for the square of a leaf. *)
Lemma pow_is_repeated_mul_witness :
  heap_wf two_leaf_heap
  /\ exists new h',
       TransformerBasis.__pow__ first_leaf (VInt 2) two_leaf_heap = (inr new, h')
       /\ has_tree h' (TransformerBasis._basis new)
            (tree_mul (TLeaf (attrs (leaf 5 (VTuple [1%nat]) [1%nat])))
                      (TLeaf (attrs (leaf 5 (VTuple [1%nat]) [1%nat])))).
Proof.
  split; [exact two_leaf_heap_wf|].
  destruct (pow_is_repeated_mul first_leaf two_leaf_heap _ (VInt 2)
              two_leaf_heap_wf first_leaf_tree)
    as (new & h' & _ & _ & Hrun & Htree & _).
  exists new, h'. split; [exact Hrun | exact Htree].
Defined.

(** On bases themselves [b ** 1] is [b], the same object; the adapter's
    [b ** 1] wraps a copy at a new address. *)
Example basis_pow_1_is_self :
  Basis.__pow__ 0%nat (VInt 1) two_leaf_heap = (inr 0%nat, two_leaf_heap).
Proof. reflexivity. Qed.

Example adapter_pow_1_is_copy :
  fst (TransformerBasis.__pow__ first_leaf (VInt 1) two_leaf_heap)
  = inr {| TransformerBasis._basis := 2%nat |}.
Proof. vm_compute. reflexivity. Qed.

Example adapter_sum_layout :
  (fun r => (fst r, operands <$> snd r))
    (TransformerBasis.__add__ first_leaf second_leaf two_leaf_heap)
  = (inr {| TransformerBasis._basis := 5%nat |},
     [None; None; Some (Add, 0, 1); None; None; Some (Add, 3, 4)]%nat).
Proof. vm_compute. reflexivity. Qed.

(* ===================================================================== *)
(** * Properties: the structured feature container *)
(* ===================================================================== *)

(** C9.  Once the container has its leading-axis length [m], assigning
    under any key a value that is not an array, or an array whose leading
    axis is not of length [m], raises a value error, and the container
    after the failed assignment is the container before it. *)
Theorem setitem_rejects (self : FeaturePytree.t) (key : string) (v : value)
    (m : nat) :
  FeaturePytree._num_time_points self = Some m ->
  (forall a, v <> VArray a)
  \/ (exists a n rest, v = VArray a /\ ndarray.shape a = n :: rest /\ n <> m) ->
  exists msg,
    FeaturePytree.__setitem__ key v self = (inl (ValueError msg), self).
Proof.
  intros Hm [Hnot | (a & n & rest & -> & Hsh & Hne)].
  - destruct v; try (eexists; reflexivity).
    exfalso. eapply Hnot. reflexivity.
  - unfold FeaturePytree.__setitem__. rewrite Hsh, Hm.
    destruct (Nat.eqb_spec n m); [contradiction|].
    eexists. reflexivity.
Qed.

(** An array with the established leading length is stored. *)
Lemma setitem_accepts (self : FeaturePytree.t) (key : string) (a : ndarray.t)
    (m : nat) (rest : list nat) :
  FeaturePytree._num_time_points self = Some m ->
  ndarray.shape a = m :: rest ->
  FeaturePytree.__setitem__ key (VArray a) self
  = (inr tt, {| FeaturePytree.data := <[key := a]> (FeaturePytree.data self);
                FeaturePytree._num_time_points := Some m |}).
Proof.
  intros Hm Hsh. unfold FeaturePytree.__setitem__.
  rewrite Hsh, Hm, Nat.eqb_refl. reflexivity.
Qed.

(** [setitem_rejects] on the container of the guide, which holds blocks of
    leading length 100: a block of leading length 99 is turned down. *)
Lemma setitem_rejects_witness :
  FeaturePytree._num_time_points example_pytree = Some 100%nat
  /\ exists msg,
       FeaturePytree.__setitem__ "feature_4"
         (VArray (ndarray.zeros [99; 2; 4]%nat)) example_pytree
       = (inl (ValueError msg), example_pytree).
Proof.
  split; [vm_compute; reflexivity|].
  apply (setitem_rejects example_pytree "feature_4"
           (VArray (ndarray.zeros [99; 2; 4]%nat)) 100).
  - vm_compute. reflexivity.
  - right. exists (ndarray.zeros [99; 2; 4]%nat), 99%nat, [2; 4]%nat.
    split; [reflexivity|]. split; [reflexivity|]. lia.
Defined.

Example example_pytree_len : FeaturePytree.__len__ example_pytree = 100%nat.
Proof. vm_compute. reflexivity. Qed.

Example setitem_rejects_string :
  fst (FeaturePytree.__setitem__ "feature_4"
         (VStr "Strings are very predictive") example_pytree)
  = inl (ValueError [Text "the value is not an array"]).
Proof. reflexivity. Qed.

(* ===================================================================== *)
(** * Further properties: the state the constructors and setters leave *)
(* ===================================================================== *)

Section ValidatedState.
Variable Basis__init__ :
  Z -> string -> option Z -> option (R * R) -> string -> result Basis_attrs.

(** What the linear constructor returns has a width that passes
    [_check_width], rescales its samples and holds the attributes
    [Basis.__init__] returned; the [width] setter changes the width and
    nothing else, so a valid basis stays valid under it. *)
Theorem linear_validated_state :
  (forall n mode width window_size bounds label self,
      RaisedCosineBasisLinear.__init__ Basis__init__
        n mode width window_size bounds label = inr self ->
      Basis__init__ n mode window_size bounds label
      = inr (RaisedCosineBasisLinear.base self)
      /\ RaisedCosineBasisLinear._width self = width
      /\ ((2 <= n_basis_funcs (RaisedCosineBasisLinear.base self))%Z ->
          RaisedCosineBasisLinear.valid self))
  /\ (forall self width self',
        RaisedCosineBasisLinear.valid self ->
        RaisedCosineBasisLinear.set_width self width = inr self' ->
        RaisedCosineBasisLinear.valid self'
        /\ RaisedCosineBasisLinear._width self' = width
        /\ RaisedCosineBasisLinear.base self' = RaisedCosineBasisLinear.base self).
Proof.
  split.
  - intros n mode width window_size bounds label self Hrun.
    unfold RaisedCosineBasisLinear.__init__ in Hrun.
    destruct (Basis__init__ n mode window_size bounds label) as [e|base];
      [discriminate|].
    cbn [bind] in Hrun.
    destruct (RaisedCosineBasisLinear._check_width width) as [e|[]] eqn:Hw;
      [discriminate|].
    cbn [bind ret] in Hrun. injection Hrun as <-. cbn.
    split; [reflexivity|]. split; [reflexivity|].
    intros Hn. split; [|split; [exact Hw | reflexivity]].
    unfold RaisedCosineBasisLinear._check_n_basis_min. cbn.
    replace (n_basis_funcs base <? 2)%Z with false
      by (symmetry; apply Z.ltb_ge; lia).
    reflexivity.
  - intros self width self' (Hmin & _ & Hresc) Hset.
    unfold RaisedCosineBasisLinear.set_width in Hset.
    destruct (RaisedCosineBasisLinear._check_width width) as [e|[]] eqn:Hw;
      [discriminate|].
    cbn [bind ret] in Hset. injection Hset as <-.
    split; [|split; reflexivity].
    split; [exact Hmin|]. split; [exact Hw | exact Hresc].
Qed.

(** What the log constructor returns has a valid width, a positive
    [time_scaling] (50 when none is given), does not rescale in the
    parent's [__call__] and holds the decay flag it was given; the
    [time_scaling] setter keeps a valid basis valid. *)
Theorem log_validated_state :
  (forall n mode width time_scaling decay window_size bounds label self,
      RaisedCosineBasisLog.__init__ Basis__init__
        n mode width time_scaling decay window_size bounds label = inr self ->
      RaisedCosineBasisLog._time_scaling self = default 50%Q time_scaling
      /\ RaisedCosineBasisLog.enforce_decay_to_zero self = decay
      /\ RaisedCosineBasisLog.width self = width
      /\ ((2 <= RaisedCosineBasisLog.n_basis self)%Z ->
          RaisedCosineBasisLog.valid self))
  /\ (forall self time_scaling self',
        RaisedCosineBasisLog.valid self ->
        RaisedCosineBasisLog.set_time_scaling self time_scaling = inr self' ->
        RaisedCosineBasisLog.valid self'
        /\ RaisedCosineBasisLog._time_scaling self' = time_scaling
        /\ RaisedCosineBasisLog.super self' = RaisedCosineBasisLog.super self).
Proof.
  split.
  - intros n mode width time_scaling decay window_size bounds label self Hrun.
    unfold RaisedCosineBasisLog.__init__, RaisedCosineBasisLinear.__init__ in Hrun.
    destruct (Basis__init__ n mode window_size bounds label) as [e|base];
      [discriminate|].
    cbn [bind] in Hrun.
    destruct (RaisedCosineBasisLinear._check_width width) as [e|[]] eqn:Hw;
      [discriminate|].
    cbn [bind ret] in Hrun.
    destruct (RaisedCosineBasisLog._check_time_scaling _) as [e|[]] eqn:Hts;
      [discriminate|].
    cbn [bind ret] in Hrun. injection Hrun as <-.
    split; [destruct time_scaling; reflexivity|].
    split; [reflexivity|]. split; [reflexivity|].
    intros Hn. split; [|split; [exact Hw | split; [reflexivity|]]].
    + unfold RaisedCosineBasisLinear._check_n_basis_min.
      unfold RaisedCosineBasisLog.n_basis in Hn. cbn in Hn |- *.
      replace (n_basis_funcs base <? 2)%Z with false
        by (symmetry; apply Z.ltb_ge; lia).
      reflexivity.
    + destruct time_scaling; exact Hts.
  - intros self time_scaling self' (Hmin & Hw & Hresc & _) Hset.
    unfold RaisedCosineBasisLog.set_time_scaling in Hset.
    destruct (RaisedCosineBasisLog._check_time_scaling time_scaling)
      as [e|[]] eqn:Hts; [discriminate|].
    cbn [bind ret] in Hset. injection Hset as <-.
    split; [|split; reflexivity].
    split; [exact Hmin|]. split; [exact Hw|]. split; [exact Hresc | exact Hts].
Qed.

End ValidatedState.

(** [linear_validated_state] for the default width. *)
Lemma linear_validated_state_witness :
  RaisedCosineBasisLinear.__init__ store_Basis_attrs
    5 "eval" 2 None None "RaisedCosineBasisLinear" = inr five_bumps
  /\ RaisedCosineBasisLinear.valid five_bumps.
Proof.
  assert (Hrun : RaisedCosineBasisLinear.__init__ store_Basis_attrs
                   5 "eval" 2 None None "RaisedCosineBasisLinear"
                 = inr five_bumps) by (vm_compute; reflexivity).
  split; [exact Hrun|].
  apply (proj1 (linear_validated_state store_Basis_attrs) _ _ _ _ _ _ _ Hrun).
  cbn. lia.
Defined.

(** [log_validated_state] for the default [time_scaling]. *)
Lemma log_validated_state_witness :
  RaisedCosineBasisLog.__init__ store_Basis_attrs
    5 "eval" 2 None true None None "RaisedCosineBasisLinear"
  = inr five_log_bumps
  /\ RaisedCosineBasisLog._time_scaling five_log_bumps = 50%Q.
Proof.
  assert (Hrun : RaisedCosineBasisLog.__init__ store_Basis_attrs
                   5 "eval" 2 None true None None "RaisedCosineBasisLinear"
                 = inr five_log_bumps) by (vm_compute; reflexivity).
  split; [exact Hrun|].
  apply (proj1 (log_validated_state store_Basis_attrs) _ _ _ _ _ _ _ _ _ Hrun).
Defined.

(* ===================================================================== *)
(** * Further properties: what [fit] lets through *)
(* ===================================================================== *)

Lemma of_nat_eq_2 (n : nat) : Z.of_nat n = 2%Z -> n = 2%nat.
Proof. lia. Qed.

(** The test of [ndim] in [_check_input], on an array of [n] axes. *)
Lemma ndim_cases {A : Type} (n : nat) (a b c : A) :
  match VInt (Z.of_nat n) with
  | VNone => a
  | VInt 2 => b
  | _ => c
  end = if (n =? 2)%nat then b else c.
Proof.
  destruct (Nat.eqb_spec n 2) as [->|Hne]; [reflexivity|].
  destruct (Z.of_nat n) as [|p|p] eqn:Hz; try reflexivity.
  destruct p as [p|p|]; try reflexivity.
  destruct p as [p|p|]; try reflexivity.
  exfalso. apply Hne, of_nat_eq_2, Hz.
Qed.

Lemma check_input_wrong_rank (self : TransformerBasis.t) (y : value) (h : heap)
    (a : ndarray.t) :
  length (ndarray.shape a) <> 2%nat ->
  TransformerBasis._check_input self (VArray a) y h
  = inl (ValueError
           [Text "X must be 2-dimensional, shape (n_samples, n_features). The provided X has shape ";
            FShape (ndarray.shape a); Text " instead."]).
Proof.
  intros Hne. unfold TransformerBasis._check_input.
  cbn [value_getattr String.eqb Ascii.eqb Bool.eqb ret].
  unfold ndarray.ndim.
  rewrite (ndim_cases _
             (raise (ValueError [Text "The input must be a 2-dimensional array."]))).
  destruct (Nat.eqb_spec (length (ndarray.shape a)) 2); [contradiction|].
  reflexivity.
Qed.

Lemma check_input_not_array (self : TransformerBasis.t) (X y : value) (h : heap) :
  (forall a, X <> VArray a) ->
  TransformerBasis._check_input self X y h
  = inl (ValueError [Text "The input must be a 2-dimensional array."]).
Proof.
  intros Hnot. destruct X; try reflexivity.
  exfalso. eapply Hnot. reflexivity.
Qed.

(** What [_check_input] has established when it returns. *)
Lemma check_input_ok_inv (self : TransformerBasis.t) (X y : value) (h : heap) :
  TransformerBasis._check_input self X y h = inr tt ->
  exists a rows cols widths,
    X = VArray a
    /\ ndarray.shape a = [rows; cols]
    /\ TransformerBasis.__getattr__ self "n_basis_input_" h = inr (VTuple widths)
    /\ cols = foldr Nat.add 0%nat widths
    /\ (y = VNone
        \/ exists ya rest, y = VArray ya /\ ndarray.shape ya = rows :: rest).
Proof.
  intros Hok.
  destruct X as [| | | | |a| |];
    try (rewrite check_input_not_array in Hok by (intros ? ?; discriminate);
         discriminate).
  destruct (decide (length (ndarray.shape a) = 2%nat)) as [Hlen|Hlen];
    [|rewrite check_input_wrong_rank in Hok by exact Hlen; discriminate].
  destruct (ndarray.shape a) as [|rows [|cols [|? ?]]] eqn:Hsh;
    try discriminate Hlen.
  exists a, rows, cols.
  unfold TransformerBasis._check_input in Hok.
  cbn [value_getattr String.eqb Ascii.eqb Bool.eqb ret] in Hok.
  unfold ndarray.ndim in Hok. rewrite Hsh in Hok.
  cbn [length Z.of_nat Pos.of_succ_nat Pos.succ bind ret value_getitem getitem
       lookup list_lookup] in Hok.
  destruct (TransformerBasis.__getattr__ self "n_basis_input_" h)
    as [e|widths] eqn:Hw; [discriminate|].
  cbn [bind] in Hok.
  destruct widths as [| | | |ws| | |]; try discriminate.
  cbn [py_sum bind ret] in Hok.
  destruct (Nat.eqb_spec cols (foldr Nat.add 0%nat ws)) as [Hcols|Hcols];
    [|discriminate].
  cbn [negb bind ret] in Hok.
  exists ws. repeat (split; [reflexivity || assumption|]).
  destruct y as [| | | | |ya| |]; try discriminate; [left; reflexivity|].
  right. cbn [value_getattr String.eqb Ascii.eqb Bool.eqb ret bind] in Hok.
  destruct (ndarray.shape ya) as [|ylen rest] eqn:Hysh; [discriminate|].
  cbn [value_getitem getitem lookup list_lookup bind ret] in Hok.
  destruct (Nat.eqb_spec ylen rows) as [->|Hne]; [|discriminate].
  exists ya, rest. split; [reflexivity | exact Hysh].
Qed.

Section FitGate.
Variable Basis_setup_basis : loc -> list ndarray.t -> M unit.

(** When [fit] returns, it returns the adapter itself, and then the basis
    had its input shape, [X] was a 2-D array with as many columns as the
    remembered widths add up to, [y] was [None] or had as many samples as
    [X], and [setup_basis] ran on the unpacked columns.  In every other
    case [setup_basis] is not reached. *)
Theorem fit_success_means_checked (self r : TransformerBasis.t)
    (X y : value) (h h' : heap) :
  TransformerBasis.fit Basis_setup_basis self X y h = (inr r, h') ->
  r = self
  /\ exists a rows cols widths inputs,
       X = VArray a
       /\ ndarray.shape a = [rows; cols]
       /\ Basis.getattr h (TransformerBasis._basis self) "_n_basis_input_"
          = inr (VTuple widths)
       /\ cols = foldr Nat.add 0%nat widths
       /\ (y = VNone
           \/ exists ya rest, y = VArray ya /\ ndarray.shape ya = rows :: rest)
       /\ TransformerBasis._unpack_inputs self X h = inr inputs
       /\ Basis_setup_basis (TransformerBasis._basis self) inputs h = (inr tt, h').
Proof.
  unfold TransformerBasis.fit, bindM, readM. intros Hrun.
  destruct (TransformerBasis._check_initialized _ h) as [e|[]] eqn:Hinit;
    [discriminate|].
  destruct (TransformerBasis._check_input self X y h) as [e|[]] eqn:Hin;
    [discriminate|].
  destruct (TransformerBasis._unpack_inputs self X h) as [e|inputs] eqn:Hun;
    [discriminate|].
  destruct (Basis_setup_basis _ inputs h) as [[e|[]] h1] eqn:Hsetup;
    [discriminate|].
  unfold retM in Hrun. injection Hrun as <- <-.
  split; [reflexivity|].
  destruct (check_input_ok_inv _ _ _ _ Hin)
    as (a & rows & cols & widths & HX & Hsh & Hw & Hcols & Hy).
  unfold TransformerBasis.__getattr__, Basis.getattr in Hw. cbn in Hw.
  exists a, rows, cols, widths, inputs.
  split; [exact HX|]. split; [exact Hsh|]. split; [exact Hw|].
  split; [exact Hcols|]. split; [exact Hy|].
  split; [reflexivity | exact Hsetup].
Qed.

(** [fit] on an adapter whose basis has its input shape turns down every
    [X] that is not a 2-D array with a value error and leaves the heap as
    it is; for an array of another rank the message carries its shape. *)
Theorem fit_rejects_wrong_rank (self : TransformerBasis.t) (X y : value)
    (h : heap) (widths : list nat) :
  Basis.getattr h (TransformerBasis._basis self) "_n_basis_input_"
  = inr (VTuple widths) ->
  ((forall a, X <> VArray a) ->
   TransformerBasis.fit Basis_setup_basis self X y h
   = (inl (ValueError [Text "The input must be a 2-dimensional array."]), h))
  /\ (forall a, X = VArray a -> length (ndarray.shape a) <> 2%nat ->
      TransformerBasis.fit Basis_setup_basis self X y h
      = (inl (ValueError
                [Text "X must be 2-dimensional, shape (n_samples, n_features). The provided X has shape ";
                 FShape (ndarray.shape a); Text " instead."]), h)).
Proof.
  intros Hw. split.
  - intros Hnot. unfold TransformerBasis.fit, bindM, readM.
    rewrite (check_initialized_tuple _ _ _ Hw).
    rewrite (check_input_not_array _ _ _ _ Hnot). reflexivity.
  - intros a -> Hlen. unfold TransformerBasis.fit, bindM, readM.
    rewrite (check_initialized_tuple _ _ _ Hw).
    rewrite (check_input_wrong_rank _ _ _ _ Hlen). reflexivity.
Qed.

End FitGate.

(* ===================================================================== *)
(** * Further properties: [_unpack_inputs] and the columns of [X] *)
(* ===================================================================== *)

Lemma slice_columns_shape (a : ndarray.t) (r c lo hi : nat) :
  ndarray.shape a = [r; c] ->
  exists x, ndarray.slice_columns a lo hi = inr x
    /\ ndarray.shape x
       = [r; (Nat.max (Nat.min lo c) (Nat.min hi c) - Nat.min lo c)%nat].
Proof.
  intros Hsh. unfold ndarray.slice_columns. rewrite Hsh.
  eexists. split; reflexivity.
Qed.

Lemma reshape_cases (x : ndarray.t) (new_shape : list nat) :
  (ndarray.size_of new_shape = ndarray.size_of (ndarray.shape x) ->
   ndarray.reshape x new_shape
   = inr {| ndarray.shape := new_shape; ndarray.data := ndarray.data x |})
  /\ (ndarray.size_of new_shape <> ndarray.size_of (ndarray.shape x) ->
      exists msg, ndarray.reshape x new_shape = inl (ValueError msg)
                  /\ mentions "cannot reshape" msg = true
                  /\ mentions "Input mismatch" msg = false).
Proof.
  unfold ndarray.reshape.
  destruct (Nat.eqb_spec (ndarray.size_of new_shape)
              (ndarray.size_of (ndarray.shape x))) as [Heq|Hne].
  - split; [reflexivity | contradiction].
  - split; [contradiction|]. intros _. eexists. repeat split; reflexivity.
Qed.

Lemma size_of_cons (n : nat) (sh : list nat) :
  ndarray.size_of (n :: sh) = (n * ndarray.size_of sh)%nat.
Proof. reflexivity. Qed.

Lemma drop_cons_inv {A : Type} (l : list A) (i : nat) (x : A) (rest : list A) :
  drop i l = x :: rest -> l !! i = Some x /\ drop (S i) l = rest.
Proof.
  intros Hd.
  assert (Hx : l !! i = Some x).
  { rewrite <- (Nat.add_0_r i), <- lookup_drop, Hd. reflexivity. }
  split; [exact Hx|].
  rewrite (drop_S _ _ _ Hx) in Hd. congruence.
Qed.

(** The loop of [_unpack_inputs] when the columns suffice. *)
Lemma unpack_loop_enough (self : TransformerBasis.t) (a : ndarray.t)
    (r c : nat) (h : heap) (ws : list nat) :
  ndarray.shape a = [r; c] ->
  TransformerBasis.__getattr__ self "_n_basis_input_" h = inr (VTuple ws) ->
  forall comps i cc suffix,
    drop i ws = suffix ->
    Forall2 (input_shape_holds h) comps suffix ->
    (cc + foldr Nat.add 0 suffix <= c)%nat ->
    exists outs,
      TransformerBasis.unpack_loop self (VArray a) r h comps i cc = inr outs
      /\ Forall2 (is_input_of h r) comps outs.
Proof.
  intros Hsh Hws comps.
  induction comps as [|bas comps IH]; intros i cc suffix Hdrop Hall Hsum.
  - exists []. split; [reflexivity | constructor].
  - destruct suffix as [|w rest]; [inversion Hall|].
    apply Forall2_cons in Hall as [(ish & Hish & Hsize) Hrest].
    apply drop_cons_inv in Hdrop as [Hw Hdrop'].
    cbn [foldr] in Hsum.
    cbn [TransformerBasis.unpack_loop]. rewrite Hws. cbn [bind value_getitem].
    rewrite (getitem_Some _ _ _ Hw). cbn [bind value_slice_columns].
    destruct (slice_columns_shape a r c cc (cc + w) Hsh) as (x & -> & Hx).
    cbn [bind]. rewrite Hish. cbn [bind ret].
    rewrite (proj1 (reshape_cases x (r :: ish))).
    2:{ rewrite Hx, !size_of_cons, Hsize. cbn. nia. }
    cbn [bind].
    destruct (IH (S i) (cc + w)%nat rest Hdrop' Hrest ltac:(lia))
      as (outs & -> & Houts).
    cbn [bind ret]. eexists. split; [reflexivity|].
    constructor; [|exact Houts].
    exists ish. split; [exact Hish | reflexivity].
Qed.

(** The loop of [_unpack_inputs] when the columns run out. *)
Lemma unpack_loop_short (self : TransformerBasis.t) (a : ndarray.t)
    (r c : nat) (h : heap) (ws : list nat) :
  ndarray.shape a = [r; c] -> (0 < r)%nat ->
  TransformerBasis.__getattr__ self "_n_basis_input_" h = inr (VTuple ws) ->
  forall comps i cc suffix,
    drop i ws = suffix ->
    Forall2 (input_shape_holds h) comps suffix ->
    (cc <= c < cc + foldr Nat.add 0 suffix)%nat ->
    exists msg,
      TransformerBasis.unpack_loop self (VArray a) r h comps i cc
      = inl (ValueError msg)
      /\ mentions "cannot reshape" msg = true
      /\ mentions "Input mismatch" msg = false.
Proof.
  intros Hsh Hr Hws comps.
  induction comps as [|bas comps IH]; intros i cc suffix Hdrop Hall Hsum.
  - destruct suffix; [|inversion Hall]. cbn in Hsum. lia.
  - destruct suffix as [|w rest]; [inversion Hall|].
    apply Forall2_cons in Hall as [(ish & Hish & Hsize) Hrest].
    apply drop_cons_inv in Hdrop as [Hw Hdrop'].
    cbn [foldr] in Hsum.
    cbn [TransformerBasis.unpack_loop]. rewrite Hws. cbn [bind value_getitem].
    rewrite (getitem_Some _ _ _ Hw). cbn [bind value_slice_columns].
    destruct (slice_columns_shape a r c cc (cc + w) Hsh) as (x & -> & Hx).
    cbn [bind]. rewrite Hish. cbn [bind ret].
    destruct (le_lt_dec (cc + w) c) as [Hfits|Hshort].
    + rewrite (proj1 (reshape_cases x (r :: ish))).
      2:{ rewrite Hx, !size_of_cons, Hsize. cbn. nia. }
      cbn [bind].
      destruct (IH (S i) (cc + w)%nat rest Hdrop' Hrest ltac:(lia))
        as (msg & -> & Hmsg).
      exists msg. split; [reflexivity | exact Hmsg].
    + destruct (proj2 (reshape_cases x (r :: ish))) as (msg & -> & Hmsg).
      { rewrite Hx, !size_of_cons, Hsize. cbn. nia. }
      exists msg. split; [reflexivity | exact Hmsg].
Qed.

Section Unpacking.
Variable Basis__compute_features : loc -> list ndarray.t -> M ndarray.t.

(** When the leaves' input shapes hold as many values as the remembered
    widths say and [X] has at least as many columns as the widths add up
    to, [_unpack_inputs] returns one array per leaf, in the order of the
    leaves, each of shape [(n_samples, *input_shape)]; columns beyond the
    sum are left out without notice. *)
Theorem unpack_inputs_shapes (self : TransformerBasis.t) (a : ndarray.t)
    (r c : nat) (h : heap) (ws : list nat) :
  ndarray.shape a = [r; c] ->
  Basis.getattr h (TransformerBasis._basis self) "_n_basis_input_"
  = inr (VTuple ws) ->
  Forall2 (input_shape_holds h)
    (Basis._list_components h (TransformerBasis._basis self)) ws ->
  (foldr Nat.add 0 ws <= c)%nat ->
  exists outs,
    TransformerBasis._unpack_inputs self (VArray a) h = inr outs
    /\ Forall2 (is_input_of h r)
         (Basis._list_components h (TransformerBasis._basis self)) outs
    /\ TransformerBasis.transform Basis__compute_features self (VArray a) VNone h
       = Basis__compute_features (TransformerBasis._basis self) outs h.
Proof.
  intros Hsh Hws Hall Hsum.
  destruct (unpack_loop_enough self a r c h ws Hsh Hws _ 0%nat 0%nat ws
              eq_refl Hall Hsum) as (outs & Hloop & Houts).
  assert (Hun : TransformerBasis._unpack_inputs self (VArray a) h = inr outs).
  { unfold TransformerBasis._unpack_inputs.
    cbn [value_getattr String.eqb Ascii.eqb Bool.eqb ret bind].
    rewrite Hsh. cbn [value_getitem getitem lookup list_lookup bind ret].
    exact Hloop. }
  exists outs. split; [exact Hun|]. split; [exact Houts|].
  unfold TransformerBasis.transform, bindM, readM.
  rewrite (check_initialized_tuple _ _ _ Hws), Hun. reflexivity.
Qed.

(** With fewer columns than the widths add up to (and at least one
    sample), [transform] fails inside [np.reshape], with numpy's message
    about the size of the array and not with the message that names the
    expected and the actual number of columns. *)
Theorem transform_too_few_columns (self : TransformerBasis.t) (a : ndarray.t)
    (r c : nat) (h : heap) (ws : list nat) (y : value) :
  ndarray.shape a = [r; c] -> (0 < r)%nat ->
  Basis.getattr h (TransformerBasis._basis self) "_n_basis_input_"
  = inr (VTuple ws) ->
  Forall2 (input_shape_holds h)
    (Basis._list_components h (TransformerBasis._basis self)) ws ->
  (c < foldr Nat.add 0 ws)%nat ->
  exists msg,
    TransformerBasis.transform Basis__compute_features self (VArray a) y h
    = (inl (ValueError msg), h)
    /\ mentions "cannot reshape" msg = true
    /\ mentions "Input mismatch" msg = false.
Proof.
  intros Hsh Hr Hws Hall Hsum.
  destruct (unpack_loop_short self a r c h ws Hsh Hr Hws _ 0%nat 0%nat ws
              eq_refl Hall ltac:(lia)) as (msg & Hloop & Hmsg).
  assert (Hun : TransformerBasis._unpack_inputs self (VArray a) h
                = inl (ValueError msg)).
  { unfold TransformerBasis._unpack_inputs.
    cbn [value_getattr String.eqb Ascii.eqb Bool.eqb ret bind].
    rewrite Hsh. cbn [value_getitem getitem lookup list_lookup bind ret].
    exact Hloop. }
  exists msg. split.
  { unfold TransformerBasis.transform, bindM, readM.
    rewrite (check_initialized_tuple _ _ _ Hws), Hun. reflexivity. }
  exact Hmsg.
Qed.

End Unpacking.

Lemma two_column_components :
  Forall2 (input_shape_holds two_column_heap)
    (Basis._list_components two_column_heap (TransformerBasis._basis wrapped))
    [2%nat].
Proof.
  repeat constructor. exists [2%nat]. split; vm_compute; reflexivity.
Defined.

(** [fit_success_means_checked] on four samples of two columns. *)
Lemma fit_success_means_checked_witness :
  TransformerBasis.fit setup_nothing wrapped (VArray (arange_array [4; 2]%nat))
    VNone two_column_heap = (inr wrapped, two_column_heap)
  /\ exists widths,
       Basis.getattr two_column_heap (TransformerBasis._basis wrapped)
         "_n_basis_input_" = inr (VTuple widths)
       /\ 2%nat = foldr Nat.add 0%nat widths.
Proof.
  assert (Hrun : TransformerBasis.fit setup_nothing wrapped
                   (VArray (arange_array [4; 2]%nat)) VNone two_column_heap
                 = (inr wrapped, two_column_heap)) by (vm_compute; reflexivity).
  split; [exact Hrun|].
  destruct (fit_success_means_checked setup_nothing _ _ _ _ _ _ Hrun)
    as (_ & a & rows & cols & widths & inputs & HX & Hsh & Hw & Hcols & _).
  exists widths. split; [exact Hw|].
  injection HX as <-. cbn in Hsh. injection Hsh as <- <-. exact Hcols.
Defined.

(** [fit_rejects_wrong_rank] on a 1-D array. *)
Lemma fit_rejects_wrong_rank_witness :
  Basis.getattr two_column_heap (TransformerBasis._basis wrapped)
    "_n_basis_input_" = inr (VTuple [2%nat])
  /\ TransformerBasis.fit setup_nothing wrapped (VArray (arange_array [4%nat]))
       VNone two_column_heap
     = (inl (ValueError
               [Text "X must be 2-dimensional, shape (n_samples, n_features). The provided X has shape ";
                FShape [4%nat]; Text " instead."]), two_column_heap).
Proof.
  assert (Hw : Basis.getattr two_column_heap (TransformerBasis._basis wrapped)
                 "_n_basis_input_" = inr (VTuple [2%nat]))
    by (vm_compute; reflexivity).
  split; [exact Hw|].
  apply (proj2 (fit_rejects_wrong_rank setup_nothing wrapped
                  (VArray (arange_array [4%nat])) VNone two_column_heap
                  [2%nat] Hw) (arange_array [4%nat]) eq_refl).
  cbn. lia.
Defined.

(** [unpack_inputs_shapes] on an array with a column to spare. *)
Lemma unpack_inputs_shapes_witness :
  ndarray.shape (arange_array [4; 3]%nat) = [4; 3]%nat
  /\ exists outs,
       TransformerBasis._unpack_inputs wrapped
         (VArray (arange_array [4; 3]%nat)) two_column_heap = inr outs
       /\ Forall2 (is_input_of two_column_heap 4)
            (Basis._list_components two_column_heap
               (TransformerBasis._basis wrapped)) outs.
Proof.
  split; [reflexivity|].
  destruct (unpack_inputs_shapes first_input wrapped (arange_array [4; 3]%nat)
              4 3 two_column_heap [2%nat] eq_refl
              ltac:(vm_compute; reflexivity) two_column_components
              ltac:(cbn; lia))
    as (outs & Hun & Houts & _).
  exists outs. split; [exact Hun | exact Houts].
Defined.

(** [transform_too_few_columns] on an array with one column for a basis
    that expects two. *)
Lemma transform_too_few_columns_witness :
  ndarray.shape (arange_array [4; 1]%nat) = [4; 1]%nat
  /\ exists msg,
       TransformerBasis.transform first_input wrapped
         (VArray (arange_array [4; 1]%nat)) VNone two_column_heap
       = (inl (ValueError msg), two_column_heap)
       /\ mentions "cannot reshape" msg = true.
Proof.
  split; [reflexivity|].
  destruct (transform_too_few_columns first_input wrapped
              (arange_array [4; 1]%nat) 4 1 two_column_heap [2%nat] VNone
              eq_refl ltac:(lia) ltac:(vm_compute; reflexivity)
              two_column_components ltac:(cbn; lia))
    as (msg & Hrun & Hmsg & _).
  exists msg. split; [exact Hrun | exact Hmsg].
Defined.

(* ===================================================================== *)
(** * Further properties: attributes, parameters and pickling *)
(* ===================================================================== *)

Lemma adapter_eta (self : TransformerBasis.t) :
  {| TransformerBasis._basis := TransformerBasis._basis self |} = self.
Proof. destruct self. reflexivity. Qed.

(** The property [basis] takes a basis only once its input shape is set
    and otherwise raises the runtime error, leaving the adapter as it
    was; assigning [_basis] takes any basis.  Neither touches the heap. *)
Theorem basis_setter_checks_initialized (self : TransformerBasis.t)
    (b : loc) (h : heap) :
  TransformerBasis.__setattr__ self "_basis" (VRef b) h
  = (inr {| TransformerBasis._basis := b |}, h)
  /\ (Basis.getattr h b "_n_basis_input_" = inr VNone ->
      TransformerBasis.__setattr__ self "basis" (VRef b) h
      = (inl (RuntimeError TransformerBasis.not_initialized_message), h))
  /\ (forall widths,
        Basis.getattr h b "_n_basis_input_" = inr (VTuple widths) ->
        TransformerBasis.__setattr__ self "basis" (VRef b) h
        = (inr {| TransformerBasis._basis := b |}, h)).
Proof.
  split; [reflexivity|]. split.
  - intros Hnone. unfold TransformerBasis.__setattr__. cbn [String.eqb Ascii.eqb Bool.eqb].
    unfold bindM, readM. rewrite (check_initialized_None _ _ Hnone). reflexivity.
  - intros widths Hw. unfold TransformerBasis.__setattr__.
    cbn [String.eqb Ascii.eqb Bool.eqb].
    unfold bindM, readM. rewrite (check_initialized_tuple _ _ _ Hw). reflexivity.
Qed.

(** Pickling round trip: [__setstate__] on what [__getstate__] returned
    gives an adapter around the same basis, whatever the new object held
    before; a state without the key [_basis] is a [KeyError]. *)
Theorem setstate_getstate (self blank : TransformerBasis.t) (h : heap) :
  TransformerBasis.__setstate__ blank (TransformerBasis.__getstate__ self) h
  = (inr self, h)
  /\ forall state, state !! "_basis" = None ->
       TransformerBasis.__setstate__ blank state h
       = (inl (TransformerBasis.KeyError "_basis"), h).
Proof.
  split.
  - unfold TransformerBasis.__setstate__, TransformerBasis.__getstate__.
    rewrite lookup_singleton_eq. cbn. rewrite adapter_eta. reflexivity.
  - intros state Hnone. unfold TransformerBasis.__setstate__.
    rewrite Hnone. reflexivity.
Qed.

Lemma size_pos_lookup (m : gmap string value) (k : string) (v : value) :
  m !! k = Some v -> (0 <? size m)%nat = true.
Proof.
  intros Hk. apply Nat.ltb_lt.
  destruct (size m) eqn:Hsize; [|lia].
  apply map_size_empty_iff in Hsize. subst m.
  rewrite lookup_empty in Hk. discriminate.
Qed.

Section Params.
Variable Basis_set_params : loc -> gmap string value -> M loc.
Variable Basis_get_params : loc -> bool -> heap -> gmap string value.

Lemma set_params_both (self : TransformerBasis.t)
    (parameters : gmap string value) (b : loc) (h : heap) (k : string)
    (v : value) :
  parameters !! "_basis" = Some (VRef b) ->
  k <> "_basis" -> parameters !! k = Some v ->
  TransformerBasis.set_params Basis_set_params self parameters h
  = (inl (ValueError TransformerBasis.both_message),
     {| TransformerBasis._basis := b |}, h).
Proof.
  intros Hb Hk Hv. unfold TransformerBasis.set_params. rewrite Hb.
  cbn [default TransformerBasis.__setattr__ String.eqb Ascii.eqb Bool.eqb retM].
  rewrite (size_pos_lookup (delete "_basis" parameters) k v); [reflexivity|].
  rewrite lookup_delete_ne by congruence. exact Hv.
Qed.

(** [set_params] with a new [_basis] assigns it first and looks at the
    other parameters afterwards: given [_basis] together with any other
    parameter the call raises the value error, and the adapter wraps the
    new basis all the same.  Given [_basis] alone it succeeds.
    [Basis.set_params] is not called in either case. *)
Theorem set_params_assigns_before_it_raises (self : TransformerBasis.t)
    (parameters : gmap string value) (b : loc) (h : heap) :
  parameters !! "_basis" = Some (VRef b) ->
  ((exists k v, k <> "_basis" /\ parameters !! k = Some v) ->
   TransformerBasis.set_params Basis_set_params self parameters h
   = (inl (ValueError TransformerBasis.both_message),
      {| TransformerBasis._basis := b |}, h))
  /\ ((forall k, k <> "_basis" -> parameters !! k = None) ->
      TransformerBasis.set_params Basis_set_params self parameters h
      = (inr {| TransformerBasis._basis := b |},
         {| TransformerBasis._basis := b |}, h)).
Proof.
  intros Hb. split.
  - intros (k & v & Hk & Hv). eapply set_params_both; eassumption.
  - intros Hnone. unfold TransformerBasis.set_params. rewrite Hb.
    cbn [default TransformerBasis.__setattr__ String.eqb Ascii.eqb Bool.eqb retM].
    assert (Hempty : delete "_basis" parameters = ∅).
    { apply map_eq. intros k. rewrite lookup_empty.
      destruct (decide (k = "_basis")) as [->|Hk].
      - apply lookup_delete_eq.
      - rewrite lookup_delete_ne by congruence. apply Hnone, Hk. }
    rewrite Hempty, map_size_empty. reflexivity.
Qed.

(** The dictionary [get_params] returns cannot be fed back: when the
    basis reports at least one parameter (and none called [_basis]),
    [set_params] called on that dictionary raises the value error about
    setting both.  Adapter and heap are as before. *)
Theorem set_params_of_get_params_raises (self : TransformerBasis.t)
    (deep : bool) (h : heap) (k : string) (v : value) :
  Basis_get_params (TransformerBasis._basis self) deep h !! "_basis" = None ->
  Basis_get_params (TransformerBasis._basis self) deep h !! k = Some v ->
  TransformerBasis.get_params Basis_get_params self deep h !! "_basis"
  = Some (VRef (TransformerBasis._basis self))
  /\ TransformerBasis.set_params Basis_set_params self
       (TransformerBasis.get_params Basis_get_params self deep h) h
     = (inl (ValueError TransformerBasis.both_message), self, h).
Proof.
  intros Hnone Hk.
  assert (Hb : TransformerBasis.get_params Basis_get_params self deep h
               !! "_basis" = Some (VRef (TransformerBasis._basis self))).
  { unfold TransformerBasis.get_params.
    rewrite lookup_union_r by exact Hnone. apply lookup_singleton_eq. }
  split; [exact Hb|].
  rewrite (set_params_both self _ _ h k v Hb), adapter_eta; [reflexivity| |].
  - intros ->. congruence.
  - unfold TransformerBasis.get_params. apply lookup_union_Some_l, Hk.
Qed.

End Params.

(* ===================================================================== *)
(** * Further properties: what a new adapter and a clone hold *)
(* ===================================================================== *)







Lemma has_tree_insert_above (h : heap) (b c : loc) (o : basis_obj) (t : btree) :
  heap_wf h -> has_tree h c t -> (c < b)%nat -> has_tree (<[b := o]> h) c t.
Proof.
  intros Hwf Ht. induction Ht as [c o' Hc Ho | c o' op l r tl tr Hc Ho _ IHl _ IHr];
    intros Hlt.
  - apply has_leaf; [|exact Ho]. rewrite list_lookup_insert_ne by lia. exact Hc.
  - destruct (Hwf _ _ _ _ _ Hc Ho) as [Hl Hr].
    eapply has_node; [|exact Ho|apply IHl; lia|apply IHr; lia].
    rewrite list_lookup_insert_ne by lia. exact Hc.
Qed.

Lemma has_tree_set_root (h : heap) (b : loc) (o : basis_obj) (t : btree)
    (name : string) (v : value) :
  heap_wf h -> has_tree h b t -> h !! b = Some o ->
  has_tree (<[b := {| attrs := <[name := v]> (attrs o);
                      operands := operands o |}]> h) b
    (with_root_attr name v t).
Proof.
  intros Hwf Ht Ho.
  assert (Hlt : (b < length h)%nat) by (eapply lookup_lt_Some, Ho).
  destruct Ht as [b o' Hb Hops | b o' op l r tl tr Hb Hops Hl Hr];
    rewrite Hb in Ho; injection Ho as <-; cbn [with_root_attr].
  - match goal with
    | |- has_tree (<[_ := ?n]> _) _ (TLeaf ?a) => change a with (attrs n)
    end.
    apply has_leaf; [apply list_lookup_insert_eq, Hlt | exact Hops].
  - destruct (Hwf _ _ _ _ _ Hb Hops) as [Hlb Hrb].
    match goal with
    | |- has_tree (<[_ := ?n]> _) _ (TNode _ ?a _ _) => change a with (attrs n)
    end.
    eapply has_node; [apply list_lookup_insert_eq, Hlt | exact Hops | |];
      apply has_tree_insert_above; assumption.
Qed.

Lemma closed_above_set_attrs (n0 : nat) (h : heap) (b : loc) (o : basis_obj)
    (a : gmap string value) :
  closed_above n0 h -> h !! b = Some o ->
  closed_above n0 (<[b := {| attrs := a; operands := operands o |}]> h).
Proof.
  intros Hc Ho c o' op l r Hn Hlook Hops.
  destruct (decide (c = b)) as [->|Hne].
  - rewrite list_lookup_insert_eq in Hlook by (eapply lookup_lt_Some, Ho).
    injection Hlook as <-. eapply Hc; eassumption.
  - rewrite list_lookup_insert_ne in Hlook by congruence.
    eapply Hc; eassumption.
Qed.

(** [__sklearn_clone__] returns an adapter around a copy of the wrapped
    basis: every object that was on the heap is as it was (the original
    keeps its kernel), the clone consists of new objects only, and its
    basis has the tree of the original except that [kernel_] is [None]
    at the root.  Below the root, in the operands of a composite, the
    attributes are copied as they are. *)
Theorem sklearn_clone_is_fresh_copy (self : TransformerBasis.t) (h : heap)
    (t : btree) :
  heap_wf h ->
  has_tree h (TransformerBasis._basis self) t ->
  exists new h',
    TransformerBasis.__sklearn_clone__ self h = (inr new, h')
    /\ (forall b, (b < length h)%nat -> h' !! b = h !! b)
    /\ (forall c, reachable h' (TransformerBasis._basis new) c ->
                  (length h <= c)%nat)
    /\ has_tree h' (TransformerBasis._basis new) (with_root_attr "kernel_" VNone t)
    /\ TransformerBasis.__getattr__ new "kernel_" h' = inr VNone.
Proof.
  intros Hwf Ht.
  unfold TransformerBasis.__sklearn_clone__, TransformerBasis.__init__, bindM.
  destruct (deepcopy_spec _ h Hwf (has_tree_lt _ _ _ Ht))
    as (y1 & ext1 & -> & Hwf1 & _ & Hy1 & Ht1).
  specialize (Ht1 t Ht).
  destruct (deepcopy_spec y1 (h ++ ext1) Hwf1 (has_tree_lt _ _ _ Ht1))
    as (y2 & ext2 & -> & Hwf2 & Hc2 & Hy2 & Ht2).
  specialize (Ht2 t Ht1).
  cbn [retM TransformerBasis._basis]. unfold Basis.setattr.
  destruct (lookup_lt_is_Some_2 ((h ++ ext1) ++ ext2) y2 ltac:(lia)) as [o2 Ho2].
  rewrite Ho2.
  eexists. eexists. split; [reflexivity|].
  rewrite length_app in Hy2.
  split.
  { intros b Hb. rewrite list_lookup_insert_ne by lia.
    rewrite lookup_app_l by (rewrite length_app; lia).
    apply lookup_app_l. exact Hb. }
  split.
  { intros c Hreach. cbn [TransformerBasis._basis] in Hreach.
    pose proof (reachable_closed_above _ _ _ _
                  (closed_above_set_attrs _ _ _ _ _ Hc2 Ho2) Hreach) as Hge.
    rewrite length_app in Hge. lia. }
  split.
  { apply has_tree_set_root; assumption. }
  unfold TransformerBasis.__getattr__, Basis.getattr.
  cbn [TransformerBasis._basis String.eqb Ascii.eqb Bool.eqb].
  rewrite list_lookup_insert_eq by (eapply lookup_lt_Some, Ho2).
  cbn [attrs]. rewrite lookup_insert_eq. reflexivity.
Qed.

(** [basis_setter_checks_initialized] for a basis without input shape. *)
Lemma basis_setter_checks_initialized_witness :
  Basis.getattr fresh_basis_heap 0%nat "_n_basis_input_" = inr VNone
  /\ TransformerBasis.__setattr__ wrapped "basis" (VRef 0%nat) fresh_basis_heap
     = (inl (RuntimeError TransformerBasis.not_initialized_message),
        fresh_basis_heap).
Proof.
  assert (Hnone : Basis.getattr fresh_basis_heap 0%nat "_n_basis_input_"
                  = inr VNone) by (vm_compute; reflexivity).
  split; [exact Hnone|].
  apply (basis_setter_checks_initialized wrapped 0%nat fresh_basis_heap), Hnone.
Defined.

(** [setstate_getstate] for a state that lacks the key. *)
Lemma setstate_getstate_witness :
  (∅ : gmap string value) !! "_basis" = None
  /\ TransformerBasis.__setstate__ wrapped ∅ two_leaf_heap
     = (inl (TransformerBasis.KeyError "_basis"), two_leaf_heap).
Proof.
  split; [reflexivity|].
  apply (setstate_getstate first_leaf wrapped two_leaf_heap). reflexivity.
Defined.

(** [set_params_assigns_before_it_raises] for a new basis together with
    a number of basis functions. *)
Lemma set_params_assigns_before_it_raises_witness :
  (<["_basis" := VRef 1%nat]> {["n_basis_funcs" := VInt 8]} : gmap string value)
    !! "_basis" = Some (VRef 1%nat)
  /\ TransformerBasis.set_params keep_params first_leaf
       (<["_basis" := VRef 1%nat]> {["n_basis_funcs" := VInt 8]}) two_leaf_heap
     = (inl (ValueError TransformerBasis.both_message), second_leaf,
        two_leaf_heap).
Proof.
  assert (Hb : (<["_basis" := VRef 1%nat]> {["n_basis_funcs" := VInt 8]}
                : gmap string value) !! "_basis" = Some (VRef 1%nat))
    by (vm_compute; reflexivity).
  split; [exact Hb|].
  apply (set_params_assigns_before_it_raises keep_params first_leaf _ 1%nat
           two_leaf_heap Hb).
  exists "n_basis_funcs", (VInt 8). split; [discriminate|].
  vm_compute. reflexivity.
Defined.

(** [set_params_of_get_params_raises] for a basis that reports its number
    of basis functions. *)
Lemma set_params_of_get_params_raises_witness :
  count_param (TransformerBasis._basis first_leaf) true two_leaf_heap
    !! "n_basis_funcs" = Some (VInt 5)
  /\ TransformerBasis.set_params keep_params first_leaf
       (TransformerBasis.get_params count_param first_leaf true two_leaf_heap)
       two_leaf_heap
     = (inl (ValueError TransformerBasis.both_message), first_leaf,
        two_leaf_heap).
Proof.
  assert (Hk : count_param (TransformerBasis._basis first_leaf) true
                 two_leaf_heap !! "n_basis_funcs" = Some (VInt 5))
    by (vm_compute; reflexivity).
  split; [exact Hk|].
  apply (set_params_of_get_params_raises keep_params count_param first_leaf
           true two_leaf_heap "n_basis_funcs" (VInt 5)).
  - vm_compute. reflexivity.
  - exact Hk.
Defined.


Lemma kernel_heap_wf : heap_wf kernel_heap.
Proof.
  intros b o op l r Hb Ho.
  destruct b as [|b]; cbn in Hb; simplify_eq; discriminate.
Defined.

(** [sklearn_clone_is_fresh_copy] for a leaf that holds a kernel. *)
Lemma sklearn_clone_is_fresh_copy_witness :
  heap_wf kernel_heap
  /\ exists new h',
       TransformerBasis.__sklearn_clone__ wrapped kernel_heap = (inr new, h')
       /\ h' !! 0%nat = kernel_heap !! 0%nat
       /\ TransformerBasis.__getattr__ new "kernel_" h' = inr VNone.
Proof.
  split; [exact kernel_heap_wf|].
  destruct (sklearn_clone_is_fresh_copy wrapped kernel_heap _ kernel_heap_wf
              (has_leaf kernel_heap 0%nat _ eq_refl eq_refl))
    as (new & h' & Hrun & Hold & _ & _ & Hk).
  exists new, h'. split; [exact Hrun|]. split; [apply Hold; cbn; lia | exact Hk].
Defined.

Example clone_keeps_original_kernel :
  (fun r => (fst r, (fun o => attrs o !! "kernel_") <$> snd r))
    (TransformerBasis.__sklearn_clone__ wrapped kernel_heap)
  = (inr {| TransformerBasis._basis := 2%nat |},
     [Some (VArray (ndarray.zeros [3; 5]%nat));
      Some (VArray (ndarray.zeros [3; 5]%nat));
      Some VNone]).
Proof. vm_compute. reflexivity. Qed.
